(** * Asset dashboard: the balance simulator and the required-quantity solver

    A shallow embedding of [app.py]: the nested functions
    [calculate_balance_with_skip_growth] and
    [find_required_assets_with_skip_growth] of [update_dashboard], and the
    table-generation loop that follows them.

    Numbers.  The Python code computes with [int] and [float].  The
    functions are written once over an arbitrary number type (class
    [PyNum]): whatever holds for every instance holds whatever the
    arithmetic does, rounding included.  Statements that need the laws of
    arithmetic are proved for the instance of exact rationals [Q]; the
    instance of IEEE binary64 numbers, Python's [float], shows on concrete
    runs where the two part.

    External code.  [scipy.optimize.root_scalar] and the Yahoo price lookup
    are not part of the program: they are parameters of the model. *)

From Stdlib Require Floats.
From Stdlib Require Import ZArith QArith Qabs Qround Qpower.
From Stdlib Require Import String List Bool Lia Lqa.
Import ListNotations.

Set Implicit Arguments.
Local Open Scope Q_scope.

(** ** Numbers *)

(** The operations the program applies to numbers. *)
Class PyNum (T : Type) := {
  lit   : Q -> T;           (* a numeric literal, or an int used as a number *)
  add   : T -> T -> T;      (* x + y *)
  sub   : T -> T -> T;      (* x - y *)
  mul   : T -> T -> T;      (* x * y *)
  div   : T -> T -> T;      (* x / y *)
  pow   : T -> Z -> T;      (* x ** k, k an int *)
  gtb   : T -> T -> bool;   (* x > y *)
  ltb   : T -> T -> bool;   (* x < y *)
  absn  : T -> T;           (* abs(x) *)
  round : T -> Z -> T       (* round(x, ndigits) *)
}.

(** Rounding of a rational to the nearest integer, ties to the even one,
    as Python's [round] does. *)
Definition round_half_even (x : Q) : Z :=
  let fl := Qfloor x in
  let frac := x - inject_Z fl in
  match Qcompare frac (1 # 2) with
  | Lt => fl
  | Gt => (fl + 1)%Z
  | Eq => if Z.even fl then fl else (fl + 1)%Z
  end.

Definition Qround_digits (x : Q) (ndigits : Z) : Q :=
  let scale := inject_Z 10 ^ ndigits in
  inject_Z (round_half_even (x * scale)) / scale.

Definition Qgtb (x y : Q) : bool := negb (Qle_bool x y).
Definition Qltb (x y : Q) : bool := negb (Qle_bool y x).

#[export] Instance Q_PyNum : PyNum Q := {|
  lit := fun q => q;
  add := Qplus;
  sub := Qminus;
  mul := Qmult;
  div := Qdiv;
  pow := Qpower;
  gtb := Qgtb;
  ltb := Qltb;
  absn := Qabs;
  round := Qround_digits
|}.

(** [range(lo, hi)] *)
Definition range (lo hi : Z) : list Z :=
  map (fun k => (lo + Z.of_nat k)%Z) (seq 0 (Z.to_nat (hi - lo))).

Section Simulator.

Context {T : Type} `{PyNum T}.

(** ** The scalar objective (app.py, lines 118-128) *)

(** One turn of the loop body: the balance after [year]. *)
Definition balance_step (E0 i r : T) (balance : T) (year : Z) : T :=
  let expenses := mul E0 (pow (add (lit 1) i) (year - 1)) in
  let asset_growth :=
    if (year =? 1)%Z then lit 0 else mul balance r in
  sub (add balance asset_growth) expenses.

Definition calculate_balance_with_skip_growth
    (A : T) (n_years : Z) (E0 i r V : T) : T :=
  let initial_balance := mul A V in
  fold_left (balance_step E0 i r) (range 1 (n_years + 1)) initial_balance.

End Simulator.

(** ** The solver (app.py, lines 130-145) *)

(** How a call ends.  [Out_of_fuel] is the model's own: the [while] loop is
    run with a bound on its number of turns. *)
Inductive outcome (R : Type) : Type :=
| Returned (x : R)
| Raised_ValueError
| Out_of_fuel.

Arguments Raised_ValueError {R}.
Arguments Out_of_fuel {R}.

Section Solver.

Context {T : Type} `{PyNum T}.

(** [root_scalar(f, bracket=[a, b], method='brentq').root], from scipy. *)
Variable root_scalar_brentq : (T -> T) -> T -> T -> T.

(** The [while] loop, entered with [fa = f a] and [fb = f b].  Beside the
    outcome it returns the points at which it evaluated the objective, in
    order. *)
Fixpoint bracket_loop (fuel : nat) (f : T -> T) (a b fa fb : T)
    : list T * outcome (T * T) :=
  if gtb (mul fa fb) (lit 0) then
    match fuel with
    | O => ([], Out_of_fuel)
    | S fuel' =>
        let a := div a (lit 2) in
        let b := mul b (lit 2) in
        let fa := f a in
        let fb := f b in
        if ltb (absn a) (lit (1 # 100000000)) || gtb (absn b) (lit 100000000)
        then ([a; b], Raised_ValueError)
        else
          let (evals, res) := bracket_loop fuel' f a b fa fb in
          (a :: b :: evals, res)
    end
  else ([], Returned (a, b)).

(** Lines 135-142: the bracket on which the root finder is called. *)
Definition find_bracket (fuel : nat) (f : T -> T) : list T * outcome (T * T) :=
  let a := lit (1 # 100) in
  let b := lit 100 in
  let (evals, res) := bracket_loop fuel f a b (f a) (f b) in
  (a :: b :: evals, res).

Definition find_required_assets_with_skip_growth
    (fuel : nat) (n_years : Z) (E0 i r V : T) : list T * outcome T :=
  let balance_to_zero :=
    fun A => calculate_balance_with_skip_growth A n_years E0 i r V in
  match find_bracket fuel balance_to_zero with
  | (evals, Returned (a, b)) =>
      (evals, Returned (root_scalar_brentq balance_to_zero a b))
  | (evals, Raised_ValueError) => (evals, Raised_ValueError)
  | (evals, Out_of_fuel) => (evals, Out_of_fuel)
  end.

End Solver.

(** ** The table (app.py, lines 157-193) *)

(** What a cell of the table holds. *)
Inductive cell (T : Type) : Type :=
| CNum (x : T)          (* a number *)
| CStr (s : string)     (* a string *)
| CPercent (x : T).     (* the string f"{x}%%" *)

Arguments CStr {T}.

(** A row: the dict appended to [data], one field per key. *)
Record row (T : Type) : Type := {
  Year : cell T;
  Starting_Balance : cell T;
  Appreciation_Rate : cell T;
  Appreciation_Value : cell T;
  Subtotal : cell T;
  Living_Expenses : cell T;
  Ending_Balance : cell T
}.

(** The values of the loop's local variables in one turn, before they are
    rounded into a row.  They are kept in a history the program does not
    have, so that statements can speak of them. *)
Record YearRecord (T : Type) : Type := {
  yearIndex : Z;
  startingBalance : T;
  appreciationAmount : T;
  subtotal : T;
  livingExpenses : T;
  endingBalance : T
}.

Record table_state (T : Type) : Type := {
  balance : T;
  data : list (row T);
  total_expenses : T;
  total_appreciation : T;
  history : list (YearRecord T)      (* ghost *)
}.

Section Table.

Context {T : Type} `{PyNum T}.

Definition year_row (start_year appreciation : T) (rec : YearRecord T) : row T :=
  {| Year := CNum (sub (add start_year (lit (inject_Z (yearIndex rec)))) (lit 1));
     Starting_Balance := CNum (round (startingBalance rec) 0);
     Appreciation_Rate := CPercent appreciation;
     Appreciation_Value := CNum (round (appreciationAmount rec) 0);
     Subtotal := CNum (round (subtotal rec) 0);
     Living_Expenses := CNum (round (livingExpenses rec) 0);
     Ending_Balance := CNum (round (endingBalance rec) 0) |}.

(** One turn of the loop of lines 163-182. *)
Definition table_step (start_year appreciation E0 inflation_rate appreciation_rate : T)
    (st : table_state T) (year : Z) : table_state T :=
  let expenses := mul E0 (pow (add (lit 1) inflation_rate) (year - 1)) in
  let asset_growth :=
    if (year =? 1)%Z then lit 0 else mul (balance st) appreciation_rate in
  let subtotal := add (balance st) asset_growth in
  let ending_balance := sub subtotal expenses in
  let rec := {| yearIndex := year;
                startingBalance := balance st;
                appreciationAmount := asset_growth;
                subtotal := subtotal;
                livingExpenses := expenses;
                endingBalance := ending_balance |} in
  {| balance := ending_balance;
     data := data st ++ [year_row start_year appreciation rec];
     total_expenses := add (total_expenses st) expenses;
     total_appreciation := add (total_appreciation st) asset_growth;
     history := history st ++ [rec] |}.

(** The state when the loop is left. *)
Definition table_loop (A_required : T) (years : Z)
    (start_year appreciation E0 inflation_rate appreciation_rate asset_value : T)
    : table_state T :=
  fold_left (table_step start_year appreciation E0 inflation_rate appreciation_rate)
    (range 1 (years + 1))
    {| balance := mul A_required asset_value;
       data := [];
       total_expenses := lit 0;
       total_appreciation := lit 0;
       history := [] |}.

(** Lines 185-193. *)
Definition totals_row (st : table_state T) : row T :=
  {| Year := CStr "Total";
     Starting_Balance := CStr "-";
     Appreciation_Rate := CStr "-";
     Appreciation_Value := CNum (round (total_appreciation st) 0);
     Subtotal := CStr "-";
     Living_Expenses := CNum (round (total_expenses st) 0);
     Ending_Balance := CStr "-" |}.

Definition generate_table (A_required : T) (years : Z)
    (start_year appreciation E0 inflation_rate appreciation_rate asset_value : T)
    : list (row T) :=
  let st := table_loop A_required years start_year appreciation E0
              inflation_rate appreciation_rate asset_value in
  data st ++ [totals_row st].

End Table.

(** ** The callback (app.py, lines 101-221) *)

(** The three figures of the summary section. *)
Record summary (T : Type) : Type := {
  summary_asset : string;
  summary_assets_required : T;
  summary_current_price : T;
  summary_total_cost : T
}.

(** What the callback hands to the page: the message in red, or the summary
    and the table.  The chart draws two columns of the table and is left
    out. *)
Inductive dashboard (T : Type) : Type :=
| No_solution (asset_ticker : string)
| Solution (s : summary T) (table : list (row T)).

Section Callback.

Context {T : Type} `{PyNum T}.

Variable root_scalar_brentq : (T -> T) -> T -> T -> T.

(** [fetch_asset_price]: the closing price from Yahoo, or [None]. *)
Variable fetch_asset_price : string -> option T.

Definition update_dashboard (fuel : nat) (asset custom_asset : string) (years : Z)
    (inflation appreciation asset_value monthly_spend start_year : T)
    : option (dashboard T) :=
  let asset_ticker := if String.eqb asset "CUSTOM" then custom_asset else asset in
  let current_price :=
    match fetch_asset_price asset_ticker with
    | Some price => price
    | None => lit 623197
    end in
  let inflation_rate := div inflation (lit 100) in
  let appreciation_rate := div appreciation (lit 100) in
  let E0 := mul monthly_spend (lit 12) in
  match find_required_assets_with_skip_growth root_scalar_brentq fuel
          years E0 inflation_rate appreciation_rate asset_value with
  | (_, Out_of_fuel) => None
  | (_, Raised_ValueError) => Some (No_solution T asset_ticker)
  | (_, Returned A_required) =>
      let total_cost := mul A_required current_price in
      Some (Solution
              {| summary_asset := asset_ticker;
                 summary_assets_required := round A_required 2;
                 summary_current_price := round current_price 2;
                 summary_total_cost := round total_cost 2 |}
              (generate_table A_required years start_year appreciation E0
                 inflation_rate appreciation_rate asset_value))
  end.

End Callback.

(** ** Auxiliary definitions for the statements *)

(** The years [1 .. m], as the loops visit them. *)
Definition years_upto (m : nat) : list Z :=
  map (fun k => (1 + Z.of_nat k)%Z) (seq 0 m).

Section Unrolled.

Context {T : Type} `{PyNum T}.

(** The balance after [m] turns of the loop body, from [balance0]. *)
Definition balance_after (E0 i r : T) (m : nat) (balance0 : T) : T :=
  fold_left (balance_step E0 i r) (years_upto m) balance0.

(** The locals of the table loop in the turn of [year], entered with
    [balance]. *)
Definition record_of (E0 i r : T) (balance : T) (year : Z) : YearRecord T :=
  let expenses := mul E0 (pow (add (lit 1) i) (year - 1)) in
  let asset_growth := if (year =? 1)%Z then lit 0 else mul balance r in
  {| yearIndex := year;
     startingBalance := balance;
     appreciationAmount := asset_growth;
     subtotal := add balance asset_growth;
     livingExpenses := expenses;
     endingBalance := sub (add balance asset_growth) expenses |}.

(** The records the table loop writes in its first [m] turns. *)
Definition records_upto (E0 i r : T) (m : nat) (b0 : T) : list (YearRecord T) :=
  map (fun k => record_of E0 i r (balance_after E0 i r k b0) (1 + Z.of_nat k))
      (seq 0 m).

(** The record of year [y] in a history, years counted from 1. *)
Definition year_record (h : list (YearRecord T)) (y : Z) : option (YearRecord T) :=
  if (1 <=? y)%Z then nth_error h (Z.to_nat (y - 1)) else None.

(** A sum accumulated from 0 in list order, as [total += x] does. *)
Definition running_total (xs : list T) : T := fold_left add xs (lit 0).

End Unrolled.

(** ** Auxiliary definitions for the statements over [Q] *)

(** The endpoints after [k] turns of the bracket loop. *)
Definition halved (k : nat) : Q := Nat.iter k (fun a => a / 2) (1 # 100).
Definition doubled (k : nat) : Q := Nat.iter k (fun b => b * 2) 100.

(** The objective has the same sign at both endpoints of bracket [k]:
    the loop test [fa * fb > 0]. *)
Definition same_sign (f : Q -> Q) (k : nat) : Prop :=
  0 < f (halved k) * f (doubled k).

(** The test of line 141 on bracket [k]. *)
Definition out_of_range (k : nat) : bool :=
  Qltb (Qabs (halved k)) (1 # 100000000) || Qgtb (Qabs (doubled k)) 100000000.

(** The endpoints of brackets [from], ..., [from + cnt - 1], low first. *)
Definition bracket_points (from cnt : nat) : list Q :=
  flat_map (fun j => [halved j; doubled j]) (seq from cnt).

(** The sum of the closed form: what the expenses of years 1..n weigh at
    the end of year n. *)
Definition compounded_expenses (n : Z) (E0 i r : Q) : Q :=
  fold_right Qplus 0
    (map (fun y => E0 * (1 + i) ^ (y - 1) * (1 + r) ^ (n - y)) (range 1 (n + 1))).

(** ** The default asset values (app.py, lines 78-85) *)

(** [d.get(key, default)] on a dict written as its list of items. *)
Fixpoint dict_get {V : Type} (d : list (string * V)) (key : string) (default : V)
    : V :=
  match d with
  | [] => default
  | (k, v) :: rest => if String.eqb k key then v else dict_get rest key default
  end.

Section Defaults.

Context {T : Type} `{PyNum T}.

Definition default_values : list (string * T) :=
  [("BTC-USD", lit 623197);
   ("SOL-USD", lit 1360);
   ("TSLA", lit 4803);
   ("MSTR", lit 9299)]%string.

Definition set_default_asset_value (asset : string) : T :=
  dict_get default_values asset (lit 0).

End Defaults.

(** ** The chart (app.py, lines 207-211) *)

(** A [go.Scatter] trace: its name and its two columns. *)
Record scatter (T : Type) : Type := {
  scatter_name : string;
  scatter_x : list (cell T);
  scatter_y : list (cell T)
}.

(** [cell != "Total"], as the comparison of a column with a string does it
    cell by cell. *)
Definition not_total {T : Type} (c : cell T) : bool :=
  match c with
  | CStr s => negb (String.eqb s "Total")
  | _ => true
  end.

(** The two traces added to the figure, from the rows of [df]. *)
Definition graph_traces {T : Type} (df : list (row T)) : list (scatter T) :=
  let years_only := filter (fun rw => not_total (Year rw)) df in
  [ {| scatter_name := "Starting Balance";
       scatter_x := map (@Year T) years_only;
       scatter_y := map (@Starting_Balance T) years_only |};
    {| scatter_name := "Ending Balance";
       scatter_x := map (@Year T) years_only;
       scatter_y := map (@Ending_Balance T) years_only |} ].

(** ** The brackets of the search, in every arithmetic *)

Section Brackets.

Context {T : Type} `{PyNum T}.

(** The endpoints after [k] turns of the bracket loop. *)
Definition low_end (k : nat) : T :=
  Nat.iter k (fun a => div a (lit 2)) (lit (1 # 100)).
Definition high_end (k : nat) : T :=
  Nat.iter k (fun b => mul b (lit 2)) (lit 100).

(** The loop test [fa * fb > 0] on bracket [k], as the arithmetic
    computes it. *)
Definition product_positive (f : T -> T) (k : nat) : bool :=
  gtb (mul (f (low_end k)) (f (high_end k))) (lit 0).

(** The test of line 141 on bracket [k]. *)
Definition past_range (k : nat) : bool :=
  ltb (absn (low_end k)) (lit (1 # 100000000))
  || gtb (absn (high_end k)) (lit 100000000).

End Brackets.

(** ** Python's [float]: IEEE binary64 *)

(** The binary64 number nearest to a rational, ties to even: the value of a
    decimal literal, and of an int used in float arithmetic.  The quotient
    is taken with 65 bits or more and a sticky bit, then rounded once. *)
Definition nearest_float (q : Q) : PrimFloat.float :=
  let n := Qnum q in
  let d := Zpos (Qden q) in
  if (n =? 0)%Z then PrimFloat.zero
  else
    let s := (65 + Z.log2 d)%Z in
    let scaled := Z.shiftl (Z.abs n) s in
    let quotient := (scaled / d)%Z in
    let sticky := if (scaled mod d =? 0)%Z then 0%Z else 1%Z in
    let m := (2 * quotient + sticky)%Z in
    FloatOps.SF2Prim
      (SpecFloat.binary_normalize FloatOps.prec FloatOps.emax
         (if (n <? 0)%Z then (- m)%Z else m) (- s - 1) false).

(** The rational a finite binary64 number stands for. *)
Definition exact_value (x : PrimFloat.float) : Q :=
  match FloatOps.Prim2SF x with
  | SpecFloat.S754_finite s m e =>
      let z := if s then Zneg m else Zpos m in
      match e with
      | Z0 => inject_Z z
      | Zpos p => inject_Z (Z.shiftl z (Zpos p))
      | Zneg p => z # Pos.shiftl 1 (Npos p)
      end
  | _ => 0
  end.

(** [round(x, ndigits)] on a float: the float nearest to the decimal
    rounding (ties to even) of the exact value of [x]; a zero result keeps
    the sign of [x]; infinities and NaN are returned as they are. *)
Definition float_round (x : PrimFloat.float) (ndigits : Z) : PrimFloat.float :=
  if PrimFloat.is_finite x then
    let q := Qround_digits (exact_value x) ndigits in
    if (Qnum q =? 0)%Z
    then (if PrimFloat.get_sign x then PrimFloat.neg_zero else PrimFloat.zero)
    else nearest_float q
  else x.

(** [x ** k] for an int [k].  Python gives 1.0 for [k = 0] and calls C's
    [pow] otherwise, raising OverflowError when the result is out of range.
    [pow] is exact where the result is a float (exponent 1, base 1.0); the
    product below is that value there, may differ from [pow] in the last
    place elsewhere, and is infinite where Python raises.  The runs stated
    below at this instance use exponents 0 and 1 only. *)
Definition float_pow (x : PrimFloat.float) (k : Z) : PrimFloat.float :=
  match k with
  | Z0 => PrimFloat.one
  | Zpos p => Pos.iter (fun acc => PrimFloat.mul acc x) PrimFloat.one p
  | Zneg p =>
      PrimFloat.div PrimFloat.one
        (Pos.iter (fun acc => PrimFloat.mul acc x) PrimFloat.one p)
  end.

Definition Binary64_PyNum : PyNum PrimFloat.float := {|
  lit := nearest_float;
  add := PrimFloat.add;
  sub := PrimFloat.sub;
  mul := PrimFloat.mul;
  div := PrimFloat.div;
  pow := float_pow;
  gtb := fun x y => PrimFloat.ltb y x;
  ltb := PrimFloat.ltb;
  absn := PrimFloat.abs;
  round := float_round
|}.

(** ** Facts that hold for every arithmetic *)

Section Structure.

Context {T : Type} `{PyNum T}.

Variables start_year appreciation E0 i r : T.

Local Abbreviation tstep := (table_step start_year appreciation E0 i r).
Local Abbreviation bstep := (balance_step E0 i r).

Lemma range_from_one (n : Z) : range 1 (n + 1) = years_upto (Z.to_nat n).
Proof.
  unfold range, years_upto.
  replace (n + 1 - 1)%Z with n by lia. reflexivity.
Qed.

Lemma range_empty (n : Z) : (n <= 0)%Z -> range 1 (n + 1) = [].
Proof.
  intros Hn. rewrite range_from_one.
  replace (Z.to_nat n) with 0%nat by lia. reflexivity.
Qed.

Lemma years_upto_S (m : nat) :
  years_upto (S m) = years_upto m ++ [(1 + Z.of_nat m)%Z].
Proof.
  unfold years_upto. rewrite seq_S, map_app. reflexivity.
Qed.

Lemma balance_after_S (m : nat) (b0 : T) :
  balance_after E0 i r (S m) b0
  = bstep (balance_after E0 i r m b0) (1 + Z.of_nat m).
Proof.
  unfold balance_after. rewrite years_upto_S, fold_left_app. reflexivity.
Qed.

Lemma calculate_balance_unrolled (A : T) (n : Z) (V : T) :
  calculate_balance_with_skip_growth A n E0 i r V
  = balance_after E0 i r (Z.to_nat n) (mul A V).
Proof.
  unfold calculate_balance_with_skip_growth, balance_after.
  rewrite range_from_one. reflexivity.
Qed.

Lemma table_step_balance (st : table_state T) (y : Z) :
  balance (tstep st y) = bstep (balance st) y.
Proof. reflexivity. Qed.

Lemma table_step_history (st : table_state T) (y : Z) :
  history (tstep st y) = history st ++ [record_of E0 i r (balance st) y].
Proof. reflexivity. Qed.

Lemma table_step_data (st : table_state T) (y : Z) :
  data (tstep st y)
  = data st ++ [year_row start_year appreciation (record_of E0 i r (balance st) y)].
Proof. reflexivity. Qed.

(** The state of the table loop after [m] turns. *)
Lemma table_fold_S (m : nat) (st0 : table_state T) :
  fold_left tstep (years_upto (S m)) st0
  = tstep (fold_left tstep (years_upto m) st0) (1 + Z.of_nat m).
Proof. rewrite years_upto_S, fold_left_app. reflexivity. Qed.

Lemma table_fold_balance (m : nat) (st0 : table_state T) :
  balance (fold_left tstep (years_upto m) st0)
  = balance_after E0 i r m (balance st0).
Proof.
  induction m as [|m IH]; [reflexivity|].
  rewrite table_fold_S, table_step_balance, IH, balance_after_S. reflexivity.
Qed.

Lemma records_upto_S (m : nat) (b0 : T) :
  records_upto E0 i r (S m) b0
  = records_upto E0 i r m b0
    ++ [record_of E0 i r (balance_after E0 i r m b0) (1 + Z.of_nat m)].
Proof. unfold records_upto. rewrite seq_S, map_app. reflexivity. Qed.

Lemma table_fold_history (m : nat) (st0 : table_state T) :
  history (fold_left tstep (years_upto m) st0)
  = history st0 ++ records_upto E0 i r m (balance st0).
Proof.
  induction m as [|m IH].
  - simpl. now rewrite app_nil_r.
  - rewrite table_fold_S, table_step_history, IH, table_fold_balance,
      records_upto_S, app_assoc. reflexivity.
Qed.

Lemma table_fold_data (m : nat) (st0 : table_state T) :
  data (fold_left tstep (years_upto m) st0)
  = data st0
    ++ map (year_row start_year appreciation) (records_upto E0 i r m (balance st0)).
Proof.
  induction m as [|m IH].
  - simpl. now rewrite app_nil_r.
  - rewrite table_fold_S, table_step_data, IH, table_fold_balance,
      records_upto_S, map_app, app_assoc. reflexivity.
Qed.

Lemma table_fold_total_expenses (m : nat) (st0 : table_state T) :
  total_expenses (fold_left tstep (years_upto m) st0)
  = fold_left add (map (@livingExpenses T) (records_upto E0 i r m (balance st0)))
      (total_expenses st0).
Proof.
  induction m as [|m IH]; [reflexivity|].
  rewrite table_fold_S, records_upto_S, map_app, fold_left_app.
  simpl. rewrite IH, ?table_fold_balance. reflexivity.
Qed.

Lemma table_fold_total_appreciation (m : nat) (st0 : table_state T) :
  total_appreciation (fold_left tstep (years_upto m) st0)
  = fold_left add (map (@appreciationAmount T) (records_upto E0 i r m (balance st0)))
      (total_appreciation st0).
Proof.
  induction m as [|m IH]; [reflexivity|].
  rewrite table_fold_S, records_upto_S, map_app, fold_left_app.
  simpl. rewrite IH, ?table_fold_balance. reflexivity.
Qed.

Lemma records_upto_length (m : nat) (b0 : T) :
  List.length (records_upto E0 i r m b0) = m.
Proof. unfold records_upto. now rewrite length_map, length_seq. Qed.

Lemma records_upto_nth (m k : nat) (b0 : T) :
  (k < m)%nat ->
  nth_error (records_upto E0 i r m b0) k
  = Some (record_of E0 i r (balance_after E0 i r k b0) (1 + Z.of_nat k)).
Proof.
  intros Hk. unfold records_upto.
  rewrite nth_error_map.
  rewrite (nth_error_nth' _ 0%nat) by (now rewrite length_seq).
  rewrite seq_nth by assumption. reflexivity.
Qed.

End Structure.

Section Trace.

Context {T : Type} `{PyNum T}.

Variables (A : T) (years : Z) (start_year appreciation E0 i r V : T).

Local Abbreviation loop_end :=
  (table_loop A years start_year appreciation E0 i r V).

Lemma table_loop_balance :
  balance loop_end = calculate_balance_with_skip_growth A years E0 i r V.
Proof.
  unfold table_loop. rewrite range_from_one, table_fold_balance.
  symmetry. apply calculate_balance_unrolled.
Qed.

Lemma table_loop_history :
  history loop_end = records_upto E0 i r (Z.to_nat years) (mul A V).
Proof.
  unfold table_loop. rewrite range_from_one, table_fold_history. reflexivity.
Qed.

Lemma table_loop_data :
  data loop_end
  = map (year_row start_year appreciation) (history loop_end).
Proof.
  rewrite table_loop_history.
  unfold table_loop. rewrite range_from_one, table_fold_data. reflexivity.
Qed.

Lemma table_loop_totals :
  total_expenses loop_end
  = running_total (map (@livingExpenses T) (history loop_end))
  /\ total_appreciation loop_end
     = running_total (map (@appreciationAmount T) (history loop_end)).
Proof.
  rewrite table_loop_history. unfold table_loop, running_total.
  rewrite range_from_one, table_fold_total_expenses,
    table_fold_total_appreciation.
  split; reflexivity.
Qed.

(** The record of a year of the horizon: what the loop saw in that turn. *)
Lemma table_loop_year (y : Z) :
  (1 <= y <= years)%Z ->
  year_record (history loop_end) y
  = Some (record_of E0 i r
            (calculate_balance_with_skip_growth A (y - 1) E0 i r V) y).
Proof.
  intros Hy. unfold year_record.
  destruct (Z.leb_spec 1 y) as [_|]; [|lia].
  rewrite table_loop_history, records_upto_nth by lia.
  rewrite calculate_balance_unrolled.
  replace (1 + Z.of_nat (Z.to_nat (y - 1)))%Z with y by lia.
  reflexivity.
Qed.

Lemma table_loop_no_year (y : Z) :
  (years < y)%Z -> year_record (history loop_end) y = None.
Proof.
  intros Hy. unfold year_record.
  destruct (Z.leb_spec 1 y); [|reflexivity].
  apply nth_error_None.
  rewrite table_loop_history, records_upto_length. lia.
Qed.

(** The scalar function, one year on. *)
Lemma calculate_balance_year (y : Z) :
  (1 <= y)%Z ->
  calculate_balance_with_skip_growth A y E0 i r V
  = balance_step E0 i r
      (calculate_balance_with_skip_growth A (y - 1) E0 i r V) y.
Proof.
  intros Hy. rewrite !calculate_balance_unrolled.
  replace (Z.to_nat y) with (S (Z.to_nat (y - 1))) by lia.
  rewrite balance_after_S. f_equal. lia.
Qed.

End Trace.

(** The rows of the table. *)

Section TableShape.

Context {T : Type} `{PyNum T}.

Variables (A : T) (years : Z) (start_year appreciation E0 i r V : T).

Local Abbreviation the_table :=
  (generate_table A years start_year appreciation E0 i r V).

Lemma generate_table_rows :
  the_table
  = map (year_row start_year appreciation)
      (records_upto E0 i r (Z.to_nat years) (mul A V))
    ++ [totals_row (table_loop A years start_year appreciation E0 i r V)].
Proof.
  unfold generate_table. rewrite table_loop_data, table_loop_history.
  reflexivity.
Qed.

Lemma generate_table_length : List.length the_table = S (Z.to_nat years).
Proof.
  rewrite generate_table_rows, length_app, length_map, records_upto_length.
  simpl. lia.
Qed.

Lemma generate_table_year_row (k : nat) :
  (k < Z.to_nat years)%nat ->
  nth_error the_table k
  = Some (year_row start_year appreciation
            (record_of E0 i r (balance_after E0 i r k (mul A V))
               (1 + Z.of_nat k))).
Proof.
  intros Hk. rewrite generate_table_rows.
  rewrite nth_error_app1 by (now rewrite length_map, records_upto_length).
  rewrite nth_error_map, records_upto_nth by assumption. reflexivity.
Qed.

Lemma generate_table_last_row :
  nth_error the_table (Z.to_nat years)
  = Some (totals_row (table_loop A years start_year appreciation E0 i r V)).
Proof.
  rewrite generate_table_rows.
  rewrite nth_error_app2 by (now rewrite length_map, records_upto_length).
  rewrite length_map, records_upto_length, Nat.sub_diag. reflexivity.
Qed.

Lemma living_expenses_of_records (m : nat) (b0 : T) :
  map (@livingExpenses T) (records_upto E0 i r m b0)
  = map (fun k => mul E0 (pow (add (lit 1) i) (1 + Z.of_nat k - 1))) (seq 0 m).
Proof. unfold records_upto. rewrite map_map. reflexivity. Qed.

Lemma generate_table_living_expenses :
  map (@Living_Expenses T) the_table
  = let es := map (fun k => mul E0 (pow (add (lit 1) i) (1 + Z.of_nat k - 1)))
                (seq 0 (Z.to_nat years)) in
    map (fun e => CNum (round e 0)) es ++ [CNum (round (running_total es) 0)].
Proof.
  rewrite generate_table_rows, map_app.
  cbn [map totals_row Living_Expenses].
  destruct (table_loop_totals A years start_year appreciation E0 i r V)
    as [-> _].
  rewrite table_loop_history, living_expenses_of_records.
  cbv zeta. f_equal.
  unfold records_upto. rewrite !map_map. reflexivity.
Qed.

End TableShape.

Lemma table_loop_succ {T : Type} `{PyNum T} (A : T) (y : Z)
    (start_year appreciation E0 i r V : T) :
  (1 <= y)%Z ->
  table_loop A y start_year appreciation E0 i r V
  = table_step start_year appreciation E0 i r
      (table_loop A (y - 1) start_year appreciation E0 i r V) y.
Proof.
  intros Hy. unfold table_loop. rewrite !range_from_one.
  replace (Z.to_nat y) with (S (Z.to_nat (y - 1))) by lia.
  rewrite table_fold_S. f_equal. lia.
Qed.


(** ** C6: the scalar objective and the table loop agree *)

(** C6.  For every arithmetic, every quantity and every parameters, the
    table loop leaves in [balance] the very value that
    [calculate_balance_with_skip_growth] returns, and the ending balance it
    computes in the final year of the horizon is that value: the two loops
    perform the same operations in the same order.  When the horizon has no
    year (years <= 0) the loop writes no record. *)
Theorem C6_trace_agrees_with_scalar :
  forall (T : Type) (num : PyNum T) (A : T) (years : Z)
         (start_year appreciation E0 i r V : T),
    let st := table_loop A years start_year appreciation E0 i r V in
    balance st = calculate_balance_with_skip_growth A years E0 i r V
    /\ match year_record (history st) years with
       | Some rec =>
           endingBalance rec
           = calculate_balance_with_skip_growth A years E0 i r V
       | None => (years <= 0)%Z
       end.
Proof.
  intros T num A years start_year appreciation E0 i r V st. subst st.
  split; [apply table_loop_balance|].
  destruct (Z.leb_spec 1 years) as [Hy|Hy].
  - rewrite table_loop_year by lia. cbn [endingBalance record_of].
    rewrite (calculate_balance_year A E0 i r V Hy). reflexivity.
  - unfold year_record. destruct (Z.leb_spec 1 years); lia.
Qed.

(** ** C3: no growth in year 1 *)

Section TableLoopYears.

Context {T : Type} `{PyNum T}.

Variables (A : T) (years : Z) (start_year appreciation E0 i r V : T).

Local Abbreviation state y :=
  (table_loop A y start_year appreciation E0 i r V).

Lemma state_balance_unrolled (y : Z) :
  balance (state y) = balance_after E0 i r (Z.to_nat y) (mul A V).
Proof. rewrite table_loop_balance. apply calculate_balance_unrolled. Qed.

(** The row of year [y] in the table of the whole horizon, read off the
    state of the loop after [y - 1] years. *)
Lemma table_row_of_year (y : Z) :
  (1 <= y <= years)%Z ->
  nth_error (generate_table A years start_year appreciation E0 i r V)
    (Z.to_nat (y - 1))
  = Some (year_row start_year appreciation
            (record_of E0 i r (balance (state (y - 1))) y)).
Proof.
  intros Hy. rewrite generate_table_year_row by lia.
  rewrite state_balance_unrolled.
  replace (1 + Z.of_nat (Z.to_nat (y - 1)))%Z with y by lia. reflexivity.
Qed.

End TableLoopYears.

(** C3.  For every arithmetic, every quantity and every parameters with a
    horizon of at least two years.  In the table loop: after year 1 the
    balance is A * V + 0 - expenses and the appreciation total is 0 + 0, and
    the first row of the table shows round(0, 0) as appreciation; in every
    year y >= 2, with b the balance the loop holds after year y - 1, the
    balance becomes b + b * r - expenses, b * r is added to the appreciation
    total, and row y shows round(b, 0) as starting balance and
    round(b * r, 0) as appreciation -- so that the appreciation of year 2 is
    the ending balance of year 1 times the rate.  The history of the loop's
    locals says the same, and the scalar function does the same: it adds 0
    in year 1 and balance * rate in every later year. *)
Theorem C3_growth_skipped_in_year_one :
  forall (T : Type) (num : PyNum T) (A : T) (years : Z)
         (start_year appreciation E0 i r V : T),
    (2 <= years)%Z ->
    let state := fun y => table_loop A y start_year appreciation E0 i r V in
    let table := generate_table A years start_year appreciation E0 i r V in
    let h := history (state years) in
    (balance (state 1%Z)
     = sub (add (mul A V) (lit 0)) (mul E0 (pow (add (lit 1) i) 0))
     /\ total_appreciation (state 1%Z) = add (lit 0) (lit 0)
     /\ exists row1,
          nth_error table 0 = Some row1
          /\ Starting_Balance row1 = CNum (round (mul A V) 0)
          /\ Appreciation_Value row1 = CNum (round (lit 0) 0)
          /\ Ending_Balance row1 = CNum (round (balance (state 1%Z)) 0))
    /\ (forall y, (2 <= y <= years)%Z ->
         let b := balance (state (y - 1)%Z) in
         balance (state y)
         = sub (add b (mul b r)) (mul E0 (pow (add (lit 1) i) (y - 1)))
         /\ total_appreciation (state y)
            = add (total_appreciation (state (y - 1)%Z)) (mul b r)
         /\ exists rw,
              nth_error table (Z.to_nat (y - 1)) = Some rw
              /\ Starting_Balance rw = CNum (round b 0)
              /\ Appreciation_Value rw = CNum (round (mul b r) 0))
    /\ (exists rec1,
          year_record h 1 = Some rec1 /\ appreciationAmount rec1 = lit 0)
    /\ (forall y, (2 <= y <= years)%Z ->
         exists rec,
           year_record h y = Some rec
           /\ appreciationAmount rec = mul (startingBalance rec) r)
    /\ (exists rec1 rec2,
          year_record h 1 = Some rec1 /\ year_record h 2 = Some rec2
          /\ startingBalance rec2 = endingBalance rec1
          /\ appreciationAmount rec2 = mul (endingBalance rec1) r)
    /\ calculate_balance_with_skip_growth A 1 E0 i r V
       = sub (add (mul A V) (lit 0)) (mul E0 (pow (add (lit 1) i) 0))
    /\ (forall y, (2 <= y)%Z ->
         let b := calculate_balance_with_skip_growth A (y - 1) E0 i r V in
         calculate_balance_with_skip_growth A y E0 i r V
         = sub (add b (mul b r)) (mul E0 (pow (add (lit 1) i) (y - 1)))).
Proof.
  intros T num A years start_year appreciation E0 i r V Hyears state table h.
  subst state table h. cbv beta.
  split; [|split; [|split; [|split; [|split; [|split]]]]].
  - split; [reflexivity|]. split; [reflexivity|].
    eexists. split; [apply (@table_row_of_year T num A years start_year appreciation
                        E0 i r V 1%Z); lia|].
    repeat split; reflexivity.
  - intros y Hy b. subst b.
    rewrite (table_loop_succ A (y:=y)) by lia.
    cbn [balance total_appreciation table_step].
    destruct (Z.eqb_spec y 1); [lia|].
    split; [reflexivity|]. split; [reflexivity|].
    eexists. split; [apply table_row_of_year; lia|].
    cbn [Starting_Balance Appreciation_Value year_row startingBalance
           appreciationAmount record_of].
    destruct (Z.eqb_spec y 1); [lia|]. split; reflexivity.
  - eexists. split; [apply table_loop_year; lia|]. reflexivity.
  - intros y Hy. eexists. split; [apply table_loop_year; lia|].
    cbn [appreciationAmount startingBalance record_of].
    destruct (Z.eqb_spec y 1); [lia|reflexivity].
  - do 2 eexists. split; [apply table_loop_year; lia|].
    split; [apply table_loop_year; lia|].
    cbn [appreciationAmount startingBalance endingBalance record_of].
    change (2 - 1)%Z with 1%Z.
    rewrite (calculate_balance_year A E0 i r V (y:=1)) by lia.
    split; reflexivity.
  - reflexivity.
  - intros y Hy b. subst b.
    rewrite (calculate_balance_year A E0 i r V (y:=y)) by lia.
    unfold balance_step. destruct (Z.eqb_spec y 1); [lia|reflexivity].
Qed.

Lemma C3_growth_skipped_witness :
  let state := fun y => table_loop (T:=Q) 1 y 2032 50 10 (1#10) (1#2) 100 in
  let table := generate_table (T:=Q) 1 2 2032 50 10 (1#10) (1#2) 100 in
  let b := balance (state (2 - 1)%Z) in
  balance (state 2%Z) = b + b * (1#2) - 10 * (1 + (1#10)) ^ (2 - 1)
  /\ total_appreciation (state 2%Z)
     = total_appreciation (state (2 - 1)%Z) + b * (1#2)
  /\ exists rw,
       nth_error table (Z.to_nat (2 - 1)) = Some rw
       /\ Starting_Balance rw = CNum (round b 0)
       /\ Appreciation_Value rw = CNum (round (b * (1#2)) 0).
Proof.
  destruct (C3_growth_skipped_in_year_one (T:=Q) _ 1 2032 50 10 (1#10) (1#2)
              100 (years:=2)) as (_ & W & _); [lia|].
  apply (W 2%Z). lia.
Defined.

(** ** C2: expenses compound from the base *)

Lemma Qmult_1_r_eq (x : Q) : x * 1 = x.
Proof.
  destruct x as [n d]. unfold Qmult. simpl.
  now rewrite Z.mul_1_r, Pos.mul_1_r.
Qed.

(** C2.  For every arithmetic, every quantity, every parameters and every
    year y of the horizon (1 <= y <= years), with
    expenses = E0 * (1 + i) ** (y - 1).  In the table loop, from the state
    after year y - 1 to the state after year y the balance becomes
    balance + growth - expenses and expenses is added to the expense total;
    row y of the table shows round(expenses, 0) as living expenses; the
    history of the loop's locals has expenses for year y.  The scalar
    function deducts the same amount in its turn of year y.  And where
    x ** 0 is 1 and x * 1 is x -- as with exact rationals, and with floats --
    the expenses of year 1 are the base E0 itself, in the balance and in the
    first row. *)
Theorem C2_expenses_compound :
  forall (T : Type) (num : PyNum T) (A : T) (years : Z)
         (start_year appreciation E0 i r V : T) (y : Z),
    (1 <= y <= years)%Z ->
    let state := fun y => table_loop A y start_year appreciation E0 i r V in
    let table := generate_table A years start_year appreciation E0 i r V in
    let expenses := mul E0 (pow (add (lit 1) i) (y - 1)) in
    (let b := balance (state (y - 1)%Z) in
     let growth := if (y =? 1)%Z then lit 0 else mul b r in
     balance (state y) = sub (add b growth) expenses)
    /\ total_expenses (state y)
       = add (total_expenses (state (y - 1)%Z)) expenses
    /\ (exists rw,
          nth_error table (Z.to_nat (y - 1)) = Some rw
          /\ Living_Expenses rw = CNum (round expenses 0))
    /\ (exists rec,
          year_record (history (state years)) y = Some rec
          /\ livingExpenses rec = expenses)
    /\ (let b := calculate_balance_with_skip_growth A (y - 1) E0 i r V in
        let growth := if (y =? 1)%Z then lit 0 else mul b r in
        calculate_balance_with_skip_growth A y E0 i r V
        = sub (add b growth) expenses)
    /\ ((forall x : T, pow x 0 = lit 1) -> (forall x : T, mul x (lit 1) = x) ->
        balance (state 1%Z) = sub (add (mul A V) (lit 0)) E0
        /\ total_expenses (state 1%Z) = add (lit 0) E0
        /\ calculate_balance_with_skip_growth A 1 E0 i r V
           = sub (add (mul A V) (lit 0)) E0
        /\ exists row1,
             nth_error table 0 = Some row1
             /\ Living_Expenses row1 = CNum (round E0 0)).
Proof.
  intros T num A years start_year appreciation E0 i r V y Hy state table
    expenses.
  subst state table expenses. cbv beta.
  split; [|split; [|split; [|split; [|split]]]].
  - cbv zeta. rewrite (table_loop_succ A (y:=y)) by lia. reflexivity.
  - rewrite (table_loop_succ A (y:=y)) by lia. reflexivity.
  - eexists. split; [apply table_row_of_year; lia|]. reflexivity.
  - eexists. split; [apply table_loop_year; lia|]. reflexivity.
  - cbv zeta. rewrite (calculate_balance_year A E0 i r V (y:=y)) by lia.
    reflexivity.
  - intros Hpow Hmul.
    assert (Hbase : mul E0 (pow (add (lit 1) i) 0) = E0)
      by (rewrite Hpow; apply Hmul).
    split; [|split; [|split]].
    + change (balance (table_loop A 1 start_year appreciation E0 i r V))
        with (sub (add (mul A V) (lit 0)) (mul E0 (pow (add (lit 1) i) 0))).
      now rewrite Hbase.
    + change (total_expenses (table_loop A 1 start_year appreciation E0 i r V))
        with (add (lit 0) (mul E0 (pow (add (lit 1) i) 0))).
      now rewrite Hbase.
    + change (calculate_balance_with_skip_growth A 1 E0 i r V)
        with (sub (add (mul A V) (lit 0)) (mul E0 (pow (add (lit 1) i) 0))).
      now rewrite Hbase.
    + eexists.
      split; [apply (@table_row_of_year T num A years start_year appreciation
                        E0 i r V 1%Z); lia|].
      cbn [Living_Expenses year_row livingExpenses record_of].
      change (1 - 1)%Z with 0%Z. now rewrite Hbase.
Qed.

Lemma C2_expenses_compound_witness :
  let table := generate_table (T:=Q) 1 3 2032 50 10 (1#10) (1#2) 100 in
  (exists rw,
      nth_error table (Z.to_nat (2 - 1)) = Some rw
      /\ Living_Expenses rw = CNum (round (10 * (1 + (1#10)) ^ (2 - 1)) 0))
  /\ exists row1,
       nth_error table 0 = Some row1
       /\ Living_Expenses row1 = CNum (round 10 0).
Proof.
  destruct (C2_expenses_compound (T:=Q) _ 1 2032 50 10 (1#10) (1#2) 100
              (years:=3) (y:=2)) as (_ & _ & W & _ & _ & W1); [lia|].
  split; [exact W|].
  apply W1; [reflexivity | exact Qmult_1_r_eq].
Defined.

(** ** The bracket loop in exact arithmetic *)

Lemma Qgtb_true (x y : Q) : Qgtb x y = true <-> y < x.
Proof.
  unfold Qgtb. rewrite negb_true_iff, <- not_true_iff_false, Qle_bool_iff.
  split; [apply Qnot_le_lt | apply Qlt_not_le].
Qed.

Lemma Qgtb_false (x y : Q) : Qgtb x y = false <-> x <= y.
Proof. unfold Qgtb. rewrite negb_false_iff. apply Qle_bool_iff. Qed.

Lemma Qltb_true (x y : Q) : Qltb x y = true <-> x < y.
Proof. apply Qgtb_true. Qed.

Lemma bracket_loop_S (fuel : nat) (f : Q -> Q) (a b fa fb : Q) :
  bracket_loop (S fuel) f a b fa fb
  = if Qgtb (fa * fb) 0 then
      if Qltb (Qabs (a / 2)) (1 # 100000000) || Qgtb (Qabs (b * 2)) 100000000
      then ([a / 2; b * 2], Raised_ValueError)
      else let (evals, res) :=
             bracket_loop fuel f (a / 2) (b * 2) (f (a / 2)) (f (b * 2)) in
           (a / 2 :: b * 2 :: evals, res)
    else ([], Returned (a, b)).
Proof. reflexivity. Qed.

Lemma out_of_range_before_20 (k : nat) :
  (k <= 19)%nat -> out_of_range k = false.
Proof.
  intros Hk.
  assert (Hall : forallb (fun j => negb (out_of_range j)) (seq 0 20) = true)
    by (vm_compute; reflexivity).
  rewrite forallb_forall in Hall.
  apply negb_true_iff, Hall, in_seq. lia.
Qed.

Lemma out_of_range_at_20 : out_of_range 20 = true.
Proof. vm_compute. reflexivity. Qed.

Lemma bracket_points_S (from cnt : nat) :
  bracket_points from (S cnt)
  = halved from :: doubled from :: bracket_points (S from) cnt.
Proof. reflexivity. Qed.

Lemma bracket_points_length (from cnt : nat) :
  List.length (bracket_points from cnt) = (2 * cnt)%nat.
Proof.
  revert from. induction cnt as [|cnt IH]; intros from; [reflexivity|].
  rewrite bracket_points_S. simpl List.length. rewrite IH. lia.
Qed.

(** The loop entered on bracket [k]: it leaves on the first bracket from
    [k] on that does not have the same sign at both ends, if there is one
    among brackets [k .. 19], and raises on reaching bracket 20 otherwise. *)
Lemma bracket_loop_from (f : Q -> Q) (fuel k : nat) :
  (k <= 19)%nat -> (20 - k <= fuel)%nat ->
  (exists m,
      (k <= m <= 19)%nat
      /\ ~ same_sign f m
      /\ (forall j, (k <= j < m)%nat -> same_sign f j)
      /\ bracket_loop fuel f (halved k) (doubled k)
           (f (halved k)) (f (doubled k))
         = (bracket_points (S k) (m - k), Returned (halved m, doubled m)))
  \/ ((forall j, (k <= j <= 19)%nat -> same_sign f j)
      /\ bracket_loop fuel f (halved k) (doubled k)
           (f (halved k)) (f (doubled k))
         = (bracket_points (S k) (20 - k), Raised_ValueError)).
Proof.
  revert k. induction fuel as [|fuel IH]; intros k Hk Hfuel; [lia|].
  rewrite bracket_loop_S.
  destruct (Qgtb (f (halved k) * f (doubled k)) 0) eqn:Hsign.
  - apply Qgtb_true in Hsign.
    change (halved k / 2) with (halved (S k)).
    change (doubled k * 2) with (doubled (S k)).
    change (Qltb (Qabs (halved (S k))) (1 # 100000000)
            || Qgtb (Qabs (doubled (S k))) 100000000)
      with (out_of_range (S k)).
    destruct (Nat.eq_dec k 19) as [->|Hne].
    + rewrite out_of_range_at_20. right. split; [|reflexivity].
      intros j Hj. replace j with 19%nat by lia. exact Hsign.
    + rewrite out_of_range_before_20 by lia.
      destruct (IH (S k)) as [(m & Hm & Hnot & Hbefore & Heq)|(Hall & Heq)];
        [lia | lia | |]; rewrite Heq.
      * left. exists m. repeat split; try lia; try assumption.
        -- intros j Hj. destruct (Nat.eq_dec j k) as [->|]; [exact Hsign|].
           apply Hbefore. lia.
        -- replace (m - k)%nat with (S (m - S k)) by lia. reflexivity.
      * right. split.
        -- intros j Hj. destruct (Nat.eq_dec j k) as [->|]; [exact Hsign|].
           apply Hall. lia.
        -- replace (20 - k)%nat with (S (20 - S k)) by lia. reflexivity.
  - left. exists k. repeat split; try lia.
    + unfold same_sign. intros Hpos. apply Qgtb_true in Hpos. congruence.
    + replace (k - k)%nat with 0%nat by lia. reflexivity.
Qed.

Lemma find_bracket_spec (f : Q -> Q) (fuel : nat) :
  (20 <= fuel)%nat ->
  (exists m,
      (m <= 19)%nat
      /\ ~ same_sign f m
      /\ (forall j, (j < m)%nat -> same_sign f j)
      /\ find_bracket fuel f
         = (bracket_points 0 (S m), Returned (halved m, doubled m)))
  \/ ((forall j, (j <= 19)%nat -> same_sign f j)
      /\ find_bracket fuel f = (bracket_points 0 21, Raised_ValueError)).
Proof.
  intros Hfuel. unfold find_bracket.
  change (lit (1 # 100)) with (halved 0). change (lit 100) with (doubled 0).
  destruct (@bracket_loop_from f fuel 0)
    as [(m & Hm & Hnot & Hbefore & Heq)|(Hall & Heq)]; try lia; rewrite Heq.
  - left. exists m. repeat split; try lia; try assumption.
    + intros j Hj. apply Hbefore. lia.
    + rewrite Nat.sub_0_r. reflexivity.
  - right. split; [|reflexivity]. intros j Hj. apply Hall. lia.
Qed.

Lemma endpoints_in_range (k : nat) :
  (k <= 19)%nat -> (1 # 100000000) <= halved k /\ doubled k <= 100000000.
Proof.
  intros Hk.
  assert (Hall : forallb (fun j => Qle_bool (1 # 100000000) (halved j)
                                   && Qle_bool (doubled j) 100000000)
                   (seq 0 20) = true)
    by (vm_compute; reflexivity).
  rewrite forallb_forall in Hall.
  specialize (Hall k). rewrite andb_true_iff, !Qle_bool_iff in Hall.
  apply Hall, in_seq. lia.
Qed.

Lemma endpoints_past_range :
  halved 20 < (1 # 100000000) /\ 100000000 < doubled 20.
Proof. split; vm_compute; reflexivity. Qed.

(** ** C5: bracket discovery and the abort *)

Section BracketSearch.

Context {T : Type} `{PyNum T}.

(** What the search needs of the arithmetic: brackets 1..19 pass the range
    test of line 141 and bracket 20 does not. *)
Hypothesis within_range : forall k, (1 <= k <= 19)%nat -> past_range k = false.
Hypothesis bracket_20_past_range : past_range 20 = true.

Lemma bracket_loop_unfold (fuel : nat) (f : T -> T) (k : nat) :
  bracket_loop (S fuel) f (low_end k) (high_end k)
    (f (low_end k)) (f (high_end k))
  = if product_positive f k then
      if past_range (S k)
      then ([low_end (S k); high_end (S k)], Raised_ValueError)
      else let (evals, res) :=
             bracket_loop fuel f (low_end (S k)) (high_end (S k))
               (f (low_end (S k))) (f (high_end (S k))) in
           (low_end (S k) :: high_end (S k) :: evals, res)
    else ([], Returned (low_end k, high_end k)).
Proof. reflexivity. Qed.

Lemma bracket_loop_search (f : T -> T) (fuel k : nat) :
  (k <= 19)%nat -> (20 - k <= fuel)%nat ->
  (exists m,
      (k <= m <= 19)%nat
      /\ product_positive f m = false
      /\ (forall j, (k <= j < m)%nat -> product_positive f j = true)
      /\ snd (bracket_loop fuel f (low_end k) (high_end k)
                (f (low_end k)) (f (high_end k)))
         = Returned (low_end m, high_end m))
  \/ ((forall j, (k <= j <= 19)%nat -> product_positive f j = true)
      /\ snd (bracket_loop fuel f (low_end k) (high_end k)
                (f (low_end k)) (f (high_end k)))
         = Raised_ValueError).
Proof.
  revert k. induction fuel as [|fuel IH]; intros k Hk Hfuel; [lia|].
  rewrite bracket_loop_unfold.
  destruct (product_positive f k) eqn:Hsign.
  - destruct (Nat.eq_dec k 19) as [->|Hne].
    + rewrite bracket_20_past_range. right. split; [|reflexivity].
      intros j Hj. replace j with 19%nat by lia. exact Hsign.
    + rewrite within_range by lia.
      destruct (IH (S k)) as [(m & Hm & Hnot & Hbefore & Heq)|(Hall & Heq)];
        [lia | lia | |];
        destruct (bracket_loop fuel f (low_end (S k)) (high_end (S k))
                    (f (low_end (S k))) (f (high_end (S k))))
          as [evals res]; cbn [snd] in Heq |- *.
      * left. exists m. repeat split; try lia; try assumption.
        intros j Hj. destruct (Nat.eq_dec j k) as [->|]; [exact Hsign|].
        apply Hbefore. lia.
      * right. split; [|exact Heq].
        intros j Hj. destruct (Nat.eq_dec j k) as [->|]; [exact Hsign|].
        apply Hall. lia.
  - left. exists k. repeat split; try lia. exact Hsign.
Qed.

Lemma find_bracket_search (f : T -> T) (fuel : nat) :
  (20 <= fuel)%nat ->
  (exists m,
      (m <= 19)%nat
      /\ (forall j, (j < m)%nat -> product_positive f j = true)
      /\ product_positive f m = false
      /\ snd (find_bracket fuel f) = Returned (low_end m, high_end m))
  \/ ((forall j, (j <= 19)%nat -> product_positive f j = true)
      /\ snd (find_bracket fuel f) = Raised_ValueError).
Proof.
  intros Hfuel. unfold find_bracket.
  change (lit (1 # 100)) with (low_end 0). change (lit 100) with (high_end 0).
  destruct (@bracket_loop_search f fuel 0)
    as [(m & Hm & Hnot & Hbefore & Heq)|(Hall & Heq)]; try lia;
    destruct (bracket_loop fuel f (low_end 0) (high_end 0)
                (f (low_end 0)) (f (high_end 0))) as [evals res];
    cbn [snd] in Heq |- *.
  - left. exists m. repeat split; try lia; try assumption.
    intros j Hj. apply Hbefore. lia.
  - right. split; [|exact Heq]. intros j Hj. apply Hall. lia.
Qed.

End BracketSearch.

(** The two facts about the range test hold for exact rationals and for
    binary64 numbers. *)
Lemma past_range_exact :
  (forall k, (1 <= k <= 19)%nat -> past_range (T:=Q) k = false)
  /\ past_range (T:=Q) 20 = true.
Proof.
  split; [|vm_compute; reflexivity].
  intros k Hk.
  assert (Hall : forallb (fun j => negb (past_range (T:=Q) j)) (seq 1 19) = true)
    by (vm_compute; reflexivity).
  rewrite forallb_forall in Hall.
  apply negb_true_iff, Hall, in_seq. lia.
Qed.

Lemma past_range_binary64 :
  (forall k, (1 <= k <= 19)%nat -> @past_range _ Binary64_PyNum k = false)
  /\ @past_range _ Binary64_PyNum 20 = true.
Proof.
  split; [|vm_compute; reflexivity].
  intros k Hk.
  assert (Hall : forallb (fun j => negb (@past_range _ Binary64_PyNum j))
                   (seq 1 19) = true)
    by (vm_compute; reflexivity).
  rewrite forallb_forall in Hall.
  apply negb_true_iff, Hall, in_seq. lia.
Qed.

(** In exact arithmetic the loop test is the sign of the exact product. *)
Lemma product_positive_exact (f : Q -> Q) (k : nat) :
  product_positive f k = true <-> 0 < f (halved k) * f (doubled k).
Proof. apply Qgtb_true. Qed.

(** C5, as amended.  For every arithmetic in which brackets 1..19 pass the
    range test and bracket 20 does not -- exact rationals and binary64 are
    such -- whatever the root finder, in a run in which the objective f
    returns every time it is called: the search starts on the bracket
    (0.01, 100) and bracket k+1 is (low / 2, high * 2) of bracket k.  Either
    some bracket m <= 19 is the first on which the computed test
    f(low) * f(high) > 0 fails; then the result is the root finder called on
    exactly that bracket.  Or the test holds on all of brackets 0..19; then
    the search raises ValueError, on reaching bracket 20.  The search does
    the same on any objective g.  The test is all that is verified: it also
    fails when f is 0 at an endpoint, or at both, and, in binary64, when the
    product of two values of the same sign underflows to 0. *)
Theorem C5_bracket_discovery :
  forall (T : Type) (num : PyNum T),
    (forall k, (1 <= k <= 19)%nat -> past_range k = false) ->
    past_range 20 = true ->
    forall (brentq : (T -> T) -> T -> T -> T) (fuel : nat) (n_years : Z)
           (E0 i r V : T),
      (20 <= fuel)%nat ->
      let f := fun A => calculate_balance_with_skip_growth A n_years E0 i r V in
      let result :=
        snd (find_required_assets_with_skip_growth brentq fuel n_years
               E0 i r V) in
      (low_end 0 = lit (1 # 100) /\ high_end 0 = lit 100
       /\ forall k, low_end (S k) = div (low_end k) (lit 2)
                    /\ high_end (S k) = mul (high_end k) (lit 2))
      /\ ((exists m,
             (m <= 19)%nat
             /\ (forall j, (j < m)%nat -> product_positive f j = true)
             /\ product_positive f m = false
             /\ result = Returned (brentq f (low_end m) (high_end m)))
          \/ ((forall j, (j <= 19)%nat -> product_positive f j = true)
              /\ result = Raised_ValueError))
      /\ (forall g : T -> T,
            (exists m,
                (m <= 19)%nat
                /\ (forall j, (j < m)%nat -> product_positive g j = true)
                /\ product_positive g m = false
                /\ snd (find_bracket fuel g)
                   = Returned (low_end m, high_end m))
            \/ ((forall j, (j <= 19)%nat -> product_positive g j = true)
                /\ snd (find_bracket fuel g) = Raised_ValueError)).
Proof.
  intros T num Hin H20 brentq fuel n_years E0 i r V Hfuel f result.
  split; [repeat split|].
  split; [|intros g; exact (find_bracket_search Hin H20 g Hfuel)].
  subst result. unfold find_required_assets_with_skip_growth. fold f.
  destruct (find_bracket_search Hin H20 f Hfuel)
    as [(m & Hm & Hbefore & Hnot & Heq)|(Hall & Heq)];
    destruct (find_bracket fuel f) as [evals res]; cbn [snd] in Heq;
    subst res; cbn [snd].
  - left. exists m. repeat split; assumption.
  - right. split; [assumption | reflexivity].
Qed.

(** The theorem at binary64, on a run where the product underflows: unit
    value 1e-200, base expense 0, one year.  The test fails on bracket 0 and
    the root finder is called on (0.01, 100). *)
Lemma C5_bracket_discovery_witness :
  let f := fun A =>
    @calculate_balance_with_skip_growth _ Binary64_PyNum A 1 (nearest_float 0)
      (nearest_float (7 # 100)) (nearest_float (15 # 100))
      (nearest_float (Qmake 1 (10 ^ 200))) in
  let result :=
    snd (@find_required_assets_with_skip_growth _ Binary64_PyNum
           (fun _ a _ => a) 20 1 (nearest_float 0) (nearest_float (7 # 100))
           (nearest_float (15 # 100)) (nearest_float (Qmake 1 (10 ^ 200)))) in
  (exists m,
      (m <= 19)%nat
      /\ (forall j, (j < m)%nat ->
          @product_positive _ Binary64_PyNum f j = true)
      /\ @product_positive _ Binary64_PyNum f m = false
      /\ result
         = Returned ((fun _ a _ => a) f (@low_end _ Binary64_PyNum m)
                       (@high_end _ Binary64_PyNum m)))
  \/ ((forall j, (j <= 19)%nat ->
       @product_positive _ Binary64_PyNum f j = true)
      /\ result = Raised_ValueError).
Proof.
  destruct past_range_binary64 as [Hin H20].
  destruct (@C5_bracket_discovery _ Binary64_PyNum Hin H20 (fun _ a _ => a) 20
              1 (nearest_float 0) (nearest_float (7 # 100))
              (nearest_float (15 # 100)) (nearest_float (Qmake 1 (10 ^ 200))))
    as (_ & W & _); [lia | exact W].
Defined.

(** The claim as stated fails: the root finder is called on pairs that do
    not change sign.  In binary64, with unit value 1e-200, base expense 0
    and one year, the objective is positive at 0.01 and at 100 (1e-202 and
    1e-198), their product underflows to 0, and the loop is left at once with
    that bracket.  In exact arithmetic, with base expense 0, appreciation
    -100% and two years, the objective is 0 at 0.01 and at 100, and the loop
    is left at once as well. *)
Lemma C5_bracket_discovery_counterexample :
  (let f := fun A =>
     @calculate_balance_with_skip_growth _ Binary64_PyNum A 1 (nearest_float 0)
       (nearest_float (7 # 100)) (nearest_float (15 # 100))
       (nearest_float (Qmake 1 (10 ^ 200))) in
   let low := nearest_float (1 # 100) in
   let high := nearest_float 100 in
   @find_bracket _ Binary64_PyNum 20 f = ([low; high], Returned (low, high))
   /\ PrimFloat.ltb PrimFloat.zero (f low) = true
   /\ PrimFloat.ltb PrimFloat.zero (f high) = true
   /\ PrimFloat.mul (f low) (f high) = PrimFloat.zero)
  /\ (let f := fun A =>
        calculate_balance_with_skip_growth (T:=Q) A 2 0 (7 # 100) (-1) 1 in
      find_bracket 20 f = ([1 # 100; 100], Returned (1 # 100, 100))
      /\ f (1 # 100) == 0 /\ f 100 == 0).
Proof.
  split; repeat split; vm_compute; reflexivity.
Qed.

(** ** C9: the bracket loop ends within 20 turns *)

(** C9.  In exact arithmetic, for every parameters and whatever the root
    finder, with fuel for 20 turns or more: the call never runs out of fuel
    and gives what it gives with fuel for exactly 20 turns; the loop makes
    some number of turns [turns <= 20], evaluating the objective twice before
    the loop and twice in each turn, at most 42 times in all; and this is
    because bracket 20 is out of range: 0.01 / 2^20 < 1e-8 and
    100 * 2^20 > 1e8. *)
Theorem C9_bracket_loop_bounded :
  forall (brentq : (Q -> Q) -> Q -> Q -> Q) (fuel : nat) (n_years : Z)
         (E0 i r V : Q),
    (20 <= fuel)%nat ->
    let run := find_required_assets_with_skip_growth brentq fuel n_years E0 i r V in
    snd run <> Out_of_fuel
    /\ run = find_required_assets_with_skip_growth brentq 20 n_years E0 i r V
    /\ (exists turns,
          (turns <= 20)%nat
          /\ List.length (fst run) = (2 + 2 * turns)%nat)
    /\ (List.length (fst run) <= 42)%nat
    /\ halved 20 == (1 # 100) / 2 ^ 20 /\ halved 20 < (1 # 100000000)
    /\ doubled 20 == 100 * 2 ^ 20 /\ 100000000 < doubled 20.
Proof.
  intros brentq fuel n_years E0 i r V Hfuel run. subst run.
  unfold find_required_assets_with_skip_growth.
  set (f := fun A => calculate_balance_with_skip_growth A n_years E0 i r V).
  assert (H20 : find_bracket fuel f = find_bracket 20 f).
  { destruct (find_bracket_spec f Hfuel) as [(m & Hm & Hnot & Hbefore & Heq)|(Hall & Heq)];
      destruct (find_bracket_spec f (le_n 20))
        as [(m' & Hm' & Hnot' & Hbefore' & Heq')|(Hall' & Heq')];
      rewrite Heq, Heq'.
    - destruct (Nat.lt_trichotomy m m') as [Hlt|[->|Hlt]];
        [elim Hnot; apply Hbefore'; exact Hlt
        | reflexivity
        | elim Hnot'; apply Hbefore; exact Hlt].
    - elim Hnot. apply Hall'. lia.
    - elim Hnot'. apply Hall. lia.
    - reflexivity. }
  rewrite H20.
  destruct (find_bracket_spec f (le_n 20))
    as [(m & Hm & Hnot & Hbefore & Heq)|(Hall & Heq)]; rewrite Heq;
    cbn [fst snd]; rewrite bracket_points_length.
  - split; [discriminate|]. split; [reflexivity|].
    split; [exists m; split; lia|]. split; [lia|].
    repeat split; vm_compute; reflexivity.
  - split; [discriminate|]. split; [reflexivity|].
    split; [exists 20%nat; split; lia|]. split; [lia|].
    repeat split; vm_compute; reflexivity.
Qed.

Lemma C9_bracket_loop_bounded_witness :
  le (List.length
        (fst (find_required_assets_with_skip_growth
                (fun _ a _ => a) 25 0 60000 (7#100) (15#100) 623197)))
     42%nat.
Proof.
  destruct (C9_bracket_loop_bounded (fun _ a _ => a) 0 60000 (7#100) (15#100)
              623197 (fuel:=25)) as (_ & _ & _ & W & _); [lia | exact W].
Defined.

(** ** C4: the objective increases with the quantity *)

Section Monotone.

Variables E0 i r : Q.
Hypothesis growth_factor_pos : 0 < 1 + r.

Lemma balance_step_le (b1 b2 : Q) (y : Z) :
  b1 <= b2 -> balance_step E0 i r b1 y <= balance_step E0 i r b2 y.
Proof.
  intros Hb. unfold balance_step. cbn [add sub mul pow lit Q_PyNum].
  destruct (y =? 1)%Z; [lra | nra].
Qed.

Lemma balance_step_lt (b1 b2 : Q) (y : Z) :
  b1 < b2 -> balance_step E0 i r b1 y < balance_step E0 i r b2 y.
Proof.
  intros Hb. unfold balance_step. cbn [add sub mul pow lit Q_PyNum].
  destruct (y =? 1)%Z; [lra | nra].
Qed.

Lemma balance_after_le (m : nat) (b1 b2 : Q) :
  b1 <= b2 -> balance_after E0 i r m b1 <= balance_after E0 i r m b2.
Proof.
  intros Hb. induction m as [|m IH]; [exact Hb|].
  rewrite !balance_after_S. now apply balance_step_le.
Qed.

Lemma balance_after_lt (m : nat) (b1 b2 : Q) :
  b1 < b2 -> balance_after E0 i r m b1 < balance_after E0 i r m b2.
Proof.
  intros Hb. induction m as [|m IH]; [exact Hb|].
  rewrite !balance_after_S. now apply balance_step_lt.
Qed.

End Monotone.

(** C4, as amended.  In exact arithmetic, for every parameters with assetUnitValue > 0
    and appreciationRate > -1, and whatever the horizon, the base expense
    and the inflation rate: A1 <= A2 gives
    finalBalance(A1) <= finalBalance(A2), and A1 < A2 gives
    finalBalance(A1) < finalBalance(A2).  The quantities need not be
    non-negative. *)
Theorem C4_objective_monotone :
  forall (n_years : Z) (E0 i r V A1 A2 : Q),
    0 < V -> -1 < r ->
    (A1 <= A2 ->
     calculate_balance_with_skip_growth A1 n_years E0 i r V
     <= calculate_balance_with_skip_growth A2 n_years E0 i r V)
    /\ (A1 < A2 ->
        calculate_balance_with_skip_growth A1 n_years E0 i r V
        < calculate_balance_with_skip_growth A2 n_years E0 i r V).
Proof.
  intros n_years E0 i r V A1 A2 HV Hr.
  assert (Hq : 0 < 1 + r) by lra.
  rewrite !calculate_balance_unrolled. cbn [mul Q_PyNum].
  split; intros HA.
  - apply balance_after_le; [exact Hq | nra].
  - apply balance_after_lt; [exact Hq | nra].
Qed.

Lemma C4_objective_monotone_witness :
  calculate_balance_with_skip_growth 1 2 10 (1#10) (1#2) 100
  < calculate_balance_with_skip_growth 2 2 10 (1#10) (1#2) 100.
Proof.
  destruct (C4_objective_monotone 2 10 (1#10) (r:=1#2) (V:=100) 1 2)
    as (_ & W); [reflexivity | reflexivity | apply W; reflexivity].
Defined.

(** The claim as stated fails in binary64.  With a base expense of 1.2e20,
    unit value 1 and one year, the balances 0.01 and 100 are both absorbed
    by the expense and the objective is the same at the two quantities: it
    is not strictly increasing.  With unit value 1e308, appreciation -50% and
    two years, the balance 100 * 1e308 overflows to infinity, the growth is
    minus infinity and the objective is NaN at 100, which nothing is less
    than or equal to: f(1) <= f(100) is false. *)
Lemma C4_objective_monotone_counterexample :
  (let f := fun A =>
     @calculate_balance_with_skip_growth _ Binary64_PyNum A 1
       (nearest_float 120000000000000000000) (nearest_float (7 # 100))
       (nearest_float (15 # 100)) (nearest_float 1) in
   PrimFloat.ltb (nearest_float (1 # 100)) (nearest_float 100) = true
   /\ f (nearest_float (1 # 100)) = f (nearest_float 100))
  /\ (let f := fun A =>
        @calculate_balance_with_skip_growth _ Binary64_PyNum A 2
          (nearest_float 1) (nearest_float 0) (nearest_float (-1 # 2))
          (nearest_float (inject_Z (10 ^ 308))) in
      PrimFloat.leb (nearest_float 1) (nearest_float 100) = true
      /\ PrimFloat.leb (f (nearest_float 1)) (f (nearest_float 100)) = false).
Proof.
  split; split; vm_compute; reflexivity.
Qed.

(** ** C10: the closed form of the objective *)

Lemma Qpower_succ_nonneg (x : Q) (k : Z) :
  (0 <= k)%Z -> x ^ (k + 1) == x ^ k * x.
Proof.
  intros Hk. rewrite Qpower_plus' by lia. reflexivity.
Qed.

Lemma Qpower_of_nat_S (x : Q) (m : nat) :
  x ^ Z.of_nat (S m) == x ^ Z.of_nat m * x.
Proof.
  replace (Z.of_nat (S m)) with (Z.of_nat m + 1)%Z by lia.
  apply Qpower_succ_nonneg. lia.
Qed.

Lemma Qsum_snoc (l : list Q) (x : Q) :
  fold_right Qplus 0 (l ++ [x]) == fold_right Qplus 0 l + x.
Proof.
  induction l as [|a l IH]; simpl; [ring|]. rewrite IH. ring.
Qed.

Section ClosedForm.

Variables E0 i r : Q.

(** The expenses of the years in [l], weighed at the end of year [n]. *)
Local Abbreviation weighed n l :=
  (fold_right Qplus 0
     (map (fun y => E0 * (1 + i) ^ (y - 1) * (1 + r) ^ (n - y)) l)).

Lemma weighed_next_year (n : Z) (l : list Z) :
  (forall y, In y l -> (y <= n)%Z) ->
  weighed (n + 1)%Z l == (1 + r) * weighed n l.
Proof.
  induction l as [|y l IH]; intros Hl; simpl; [ring|].
  rewrite IH by (intros; apply Hl; now right).
  replace (n + 1 - y)%Z with (n - y + 1)%Z by lia.
  rewrite Qpower_succ_nonneg by (specialize (Hl y (or_introl eq_refl)); lia).
  ring.
Qed.

Lemma years_upto_bound (m : nat) (y : Z) :
  In y (years_upto m) -> (y <= Z.of_nat m)%Z.
Proof.
  unfold years_upto. rewrite in_map_iff.
  intros (k & <- & Hk). apply in_seq in Hk. lia.
Qed.

Lemma compounded_expenses_S (m : nat) :
  compounded_expenses (Z.of_nat (S m)) E0 i r
  == (1 + r) * compounded_expenses (Z.of_nat m) E0 i r
     + E0 * (1 + i) ^ Z.of_nat m.
Proof.
  unfold compounded_expenses.
  rewrite !range_from_one, !Nat2Z.id, years_upto_S, map_app.
  cbn [map]. rewrite Qsum_snoc.
  replace (Z.of_nat (S m)) with (Z.of_nat m + 1)%Z by lia.
  rewrite weighed_next_year by apply years_upto_bound.
  replace (1 + Z.of_nat m - 1)%Z with (Z.of_nat m) by lia.
  replace (Z.of_nat m + 1 - (1 + Z.of_nat m))%Z with 0%Z by lia.
  change ((1 + r) ^ 0) with 1. ring.
Qed.

Lemma balance_after_closed (m : nat) (b0 : Q) :
  balance_after E0 i r (S m) b0
  == b0 * (1 + r) ^ Z.of_nat m - compounded_expenses (Z.of_nat (S m)) E0 i r.
Proof.
  induction m as [|m IH].
  - rewrite balance_after_S, (compounded_expenses_S 0).
    change (balance_after E0 i r 0 b0) with b0.
    change (compounded_expenses (Z.of_nat 0) E0 i r) with 0.
    unfold balance_step. cbn [add sub mul pow lit Q_PyNum].
    change (1 + Z.of_nat 0)%Z with 1%Z. change (Z.of_nat 0) with 0%Z.
    change (1 =? 1)%Z with true. change (1 - 1)%Z with 0%Z.
    change ((1 + i) ^ 0) with 1. change ((1 + r) ^ 0) with 1.
    cbv iota. ring.
  - rewrite balance_after_S. unfold balance_step.
    cbn [add sub mul pow lit Q_PyNum].
    destruct (Z.eqb_spec (1 + Z.of_nat (S m)) 1) as [Heq|_]; [lia|].
    rewrite IH.
    rewrite (compounded_expenses_S (S m)).
    replace (1 + Z.of_nat (S m) - 1)%Z with (Z.of_nat (S m)) by lia.
    rewrite !Qpower_of_nat_S. ring.
Qed.

End ClosedForm.

Lemma calculate_balance_closed (A : Q) (n : Z) (E0 i r V : Q) :
  (1 <= n)%Z ->
  calculate_balance_with_skip_growth A n E0 i r V
  == A * V * (1 + r) ^ (n - 1) - compounded_expenses n E0 i r.
Proof.
  intros Hn. rewrite calculate_balance_unrolled.
  replace (Z.to_nat n) with (S (Z.to_nat (n - 1))) by lia.
  rewrite balance_after_closed.
  replace (Z.of_nat (S (Z.to_nat (n - 1)))) with n by lia.
  replace (Z.of_nat (Z.to_nat (n - 1))) with (n - 1)%Z by lia.
  reflexivity.
Qed.

(** C10, as amended.  In exact arithmetic, for every parameters with a horizon
    n >= 1 and every quantity A, the objective is
    A * V * (1+r)^(n-1) - sum over y = 1..n of
    E0 * (1+i)^(y-1) * (1+r)^(n-y); and when V > 0 and r > -1 it has a root,
    and only one. *)
Theorem C10_objective_affine :
  forall (A : Q) (n : Z) (E0 i r V : Q),
    (1 <= n)%Z ->
    calculate_balance_with_skip_growth A n E0 i r V
    == A * V * (1 + r) ^ (n - 1) - compounded_expenses n E0 i r
    /\ (0 < V -> -1 < r ->
        exists root,
          calculate_balance_with_skip_growth root n E0 i r V == 0
          /\ forall A',
               calculate_balance_with_skip_growth A' n E0 i r V == 0 ->
               A' == root).
Proof.
  intros A n E0 i r V Hn. split; [now apply calculate_balance_closed|].
  intros HV Hr.
  assert (Hs : 0 < (1 + r) ^ (n - 1)) by (apply Qpower_0_lt; lra).
  set (s := (1 + r) ^ (n - 1)) in *.
  set (S := compounded_expenses n E0 i r).
  assert (Hslope : 0 < V * s) by nra.
  exists (S / (V * s)). split.
  - rewrite calculate_balance_closed by assumption. fold s S.
    field. split; lra.
  - intros A' HA'. rewrite calculate_balance_closed in HA' by assumption.
    fold s S in HA'.
    assert (HS : S == A' * (V * s)) by lra.
    rewrite HS. field. split; lra.
Qed.

Lemma C10_objective_affine_witness :
  calculate_balance_with_skip_growth 1 2 10 (1#10) (1#2) 100
  == 1 * 100 * (1 + (1#2)) ^ (2 - 1) - compounded_expenses 2 10 (1#10) (1#2)
  /\ exists root,
       calculate_balance_with_skip_growth root 2 10 (1#10) (1#2) 100 == 0
       /\ forall A',
            calculate_balance_with_skip_growth A' 2 10 (1#10) (1#2) 100 == 0 ->
            A' == root.
Proof.
  destruct (C10_objective_affine 1 10 (1#10) (1#2) 100 (n:=2)) as (W1 & W2);
    [lia|].
  split; [exact W1 | apply W2; reflexivity].
Defined.

(** The claim as stated fails in binary64: the computed objective is not the
    closed form but its rounding, and it need not have exactly one root.
    With base expense 1, unit value 3 and one year the objective is
    3 * A - 1; it is 0 at the float nearest to 1/3 and at the next float
    up. *)
Lemma C10_objective_affine_counterexample :
  let f := fun A =>
    @calculate_balance_with_skip_growth _ Binary64_PyNum A 1 (nearest_float 1)
      (nearest_float (7 # 100)) (nearest_float (15 # 100)) (nearest_float 3) in
  let third := nearest_float (1 # 3) in
  PrimFloat.ltb third (PrimFloat.next_up third) = true
  /\ f third = PrimFloat.zero
  /\ f (PrimFloat.next_up third) = PrimFloat.zero.
Proof.
  repeat split; vm_compute; reflexivity.
Qed.

(** ** C7: the totals row *)

(** C7, as amended.  For every arithmetic and every run of the callback that
    returns a table: with A_required the quantity the solver returned and h
    the locals of the table loop run from it, the table is one row per year
    of h followed by the totals row.  In the totals row the appreciation cell
    is round(t, 0) for t the appreciation amounts of h added up from 0 in
    year order, the expenses cell is the same of the living expenses, the
    Year cell is the label "Total", and the Starting Balance, Appreciation
    Rate, Subtotal and Ending Balance cells are "-". *)
Theorem C7_totals_row :
  forall (T : Type) (num : PyNum T)
         (brentq : (T -> T) -> T -> T -> T) (fetch : string -> option T)
         (fuel : nat) (asset custom_asset : string) (years : Z)
         (inflation appreciation asset_value monthly_spend start_year : T)
         (s : summary T) (table : list (row T)),
    update_dashboard brentq fetch fuel asset custom_asset years inflation
      appreciation asset_value monthly_spend start_year
    = Some (Solution s table) ->
    let E0 := mul monthly_spend (lit 12) in
    let inflation_rate := div inflation (lit 100) in
    let appreciation_rate := div appreciation (lit 100) in
    exists A_required,
      snd (find_required_assets_with_skip_growth brentq fuel years E0
             inflation_rate appreciation_rate asset_value)
      = Returned A_required
      /\ let h := history (table_loop A_required years start_year appreciation
                            E0 inflation_rate appreciation_rate asset_value) in
         table
         = map (year_row start_year appreciation) h
           ++ [ {| Year := CStr "Total";
                   Starting_Balance := CStr "-";
                   Appreciation_Rate := CStr "-";
                   Appreciation_Value :=
                     CNum (round (running_total
                                    (map (@appreciationAmount T) h)) 0);
                   Subtotal := CStr "-";
                   Living_Expenses :=
                     CNum (round (running_total
                                    (map (@livingExpenses T) h)) 0);
                   Ending_Balance := CStr "-" |} ].
Proof.
  intros T num brentq fetch fuel asset custom_asset years inflation
    appreciation asset_value monthly_spend start_year s table.
  unfold update_dashboard.
  destruct (find_required_assets_with_skip_growth _ _ _ _ _ _ _)
    as [evals [A_required| |]]; try discriminate.
  intros Hrun. injection Hrun as _ Htable.
  exists A_required. split; [reflexivity|].
  subst table. unfold generate_table.
  rewrite table_loop_data. unfold totals_row.
  destruct (table_loop_totals A_required years start_year appreciation
              (mul monthly_spend (lit 12)) (div inflation (lit 100))
              (div appreciation (lit 100)) asset_value) as [-> ->].
  reflexivity.
Qed.

Lemma C7_totals_row_witness :
  exists A_required,
    snd (find_required_assets_with_skip_growth (T:=Q) (fun _ _ _ => 24 # 5)
           20 2 ((1#5) * 12) (0 / 100) (0 / 100) 1)
    = Returned A_required.
Proof.
  edestruct (C7_totals_row (T:=Q) _ (fun _ _ _ => 24 # 5) (fun _ => None) 20
               "BTC-USD" "" 2 0 0 1 (1#5) 2032) as (A & W & _);
    [vm_compute; reflexivity|].
  exists A. exact W.
Defined.

(** The claim as stated fails.  A run with monthly spend 0.2 over two years,
    no inflation, no appreciation, unit value 1: the bracket (0.01, 100)
    changes sign, the root is 4.8.  The expenses are 2.4 in each year, shown
    as 2 and 2; the totals row shows 5, which is neither 4.8 nor 2 + 2; and
    its Year cell holds "Total", not the mark "-". *)
Lemma C7_totals_row_counterexample :
  calculate_balance_with_skip_growth (24 # 5) 2 ((1#5) * 12) (0 / 100) (0 / 100) 1
  == 0
  /\ match update_dashboard (T:=Q) (fun _ _ _ => 24 # 5) (fun _ => None) 20
            "BTC-USD" "" 2 0 0 1 (1#5) 2032 with
     | Some (Solution _ table) =>
         map (@Year Q) table = [CNum 2032; CNum 2033; CStr "Total"]
         /\ map (@Living_Expenses Q) table = [CNum 2; CNum 2; CNum 5]
         /\ CStr "Total" <> CStr (T:=Q) "-"
         /\ ~ 5 == (12 # 5) + (12 # 5)
         /\ ~ 5 == 2 + 2
     | _ => False
     end.
Proof.
  split; [vm_compute; reflexivity|].
  vm_compute. repeat split; discriminate.
Qed.

(** ** C8: parameters are not validated *)

Lemma halved_pos (k : nat) : 0 < halved k.
Proof.
  induction k as [|k IH]; [reflexivity|].
  change (halved (S k)) with (halved k * (1 # 2)). lra.
Qed.

Lemma doubled_pos (k : nat) : 0 < doubled k.
Proof.
  induction k as [|k IH]; [reflexivity|].
  change (doubled (S k)) with (doubled k * 2). lra.
Qed.

Section Simulated.

Context {T : Type} `{PyNum T}.

(** The bracket the loop is left with is the one it was entered with or one
    whose two ends it has evaluated. *)
Lemma bracket_loop_returns_evaluated (f : T -> T) (fuel : nat) :
  forall (a b fa fb lo hi : T),
    snd (bracket_loop fuel f a b fa fb) = Returned (lo, hi) ->
    (lo = a /\ hi = b)
    \/ (In lo (fst (bracket_loop fuel f a b fa fb))
        /\ In hi (fst (bracket_loop fuel f a b fa fb))).
Proof.
  induction fuel as [|fuel IH]; intros a b fa fb lo hi.
  - cbn [bracket_loop]. destruct (gtb (mul fa fb) (lit 0)); cbn [snd].
    + discriminate.
    + intros Heq. injection Heq as <- <-. left. split; reflexivity.
  - cbn [bracket_loop]. destruct (gtb (mul fa fb) (lit 0)); cbn [snd].
    + destruct (ltb _ _ || gtb _ _); cbn [snd]; [discriminate|].
      specialize (IH (div a (lit 2)) (mul b (lit 2))
                    (f (div a (lit 2))) (f (mul b (lit 2))) lo hi).
      destruct (bracket_loop fuel f (div a (lit 2)) (mul b (lit 2))
                  (f (div a (lit 2))) (f (mul b (lit 2)))) as [evals res].
      cbn [fst snd] in IH |- *. intros Hres.
      right. destruct (IH Hres) as [[-> ->]|[Hlo Hhi]]; simpl; tauto.
    + intros Heq. injection Heq as <- <-. left. split; reflexivity.
Qed.

End Simulated.

(** C8, as amended.  The code has no check of its parameters: a
    non-positive horizon, base expense or unit value is not rejected.  For
    every arithmetic, all parameters and whatever the root finder, in a run
    in which the objective returns every time it is called: the first thing
    the solver does is to simulate, at the quantities 0.01 and 100; with a
    non-positive horizon what it simulates is no year at all, the objective
    being A * V; and a quantity it returns is the root finder's value on a
    bracket whose two ends it has simulated. *)
Theorem C8_no_validation_before_simulating :
  forall (T : Type) (num : PyNum T) (brentq : (T -> T) -> T -> T -> T)
         (fuel : nat) (n_years : Z) (E0 i r V : T),
    let f := fun A => calculate_balance_with_skip_growth A n_years E0 i r V in
    let run :=
      find_required_assets_with_skip_growth brentq fuel n_years E0 i r V in
    (exists rest, fst run = lit (1 # 100) :: lit 100 :: rest)
    /\ ((n_years <= 0)%Z -> forall A, f A = mul A V)
    /\ (forall x, snd run = Returned x ->
        exists lo hi,
          x = brentq f lo hi /\ In lo (fst run) /\ In hi (fst run)).
Proof.
  intros T num brentq fuel n_years E0 i r V f run. subst run.
  unfold find_required_assets_with_skip_growth. fold f. unfold find_bracket.
  pose proof (@bracket_loop_returns_evaluated T num f fuel (lit (1 # 100))
                (lit 100) (f (lit (1 # 100))) (f (lit 100))) as Hloop.
  destruct (bracket_loop fuel f (lit (1 # 100)) (lit 100)
              (f (lit (1 # 100))) (f (lit 100))) as [evals res].
  cbn [fst snd] in Hloop.
  split; [|split].
  - destruct res as [[lo hi]| |]; eexists; reflexivity.
  - intros Hn A. unfold f, calculate_balance_with_skip_growth.
    rewrite range_empty by assumption. reflexivity.
  - intros x Hx. destruct res as [[lo hi]| |]; cbn [snd] in Hx;
      try discriminate.
    injection Hx as <-. exists lo, hi. split; [reflexivity|].
    cbn [fst].
    destruct (Hloop lo hi eq_refl) as [[-> ->]|[Hlo Hhi]]; simpl; tauto.
Qed.

Lemma C8_no_validation_witness :
  @calculate_balance_with_skip_growth _ Binary64_PyNum (nearest_float 100) 0
    (nearest_float 60000) (nearest_float (7 # 100))
    (nearest_float (15 # 100)) (nearest_float 623197)
  = PrimFloat.mul (nearest_float 100) (nearest_float 623197).
Proof.
  destruct (@C8_no_validation_before_simulating _ Binary64_PyNum
              (fun _ a _ => a) 20 0 (nearest_float 60000)
              (nearest_float (7 # 100)) (nearest_float (15 # 100))
              (nearest_float 623197)) as (_ & W & _).
  apply W. lia.
Defined.

(** The claim as stated fails.  With a horizon of 0 years and the page's
    default values otherwise, nothing is rejected up front: the objective is
    evaluated 42 times, and only then does the search fail, with the
    ValueError of every other failed search; the callback shows the same
    message.  With a base expense of 0 (and appreciation of -100% over two
    years) the objective is 0 at 0.01 and at 100, the loop is left at once
    and the root finder's answer is returned as the required quantity.  The
    runs are the same in exact arithmetic and in binary64. *)
Lemma C8_rejection_counterexample :
  ((let run :=
      find_required_assets_with_skip_growth (fun _ a _ => a) 20 0 (5000 * 12)
        (7 / 100) (15 / 100) 623197 in
    List.length (fst run) = 42%nat /\ snd run = Raised_ValueError)
   /\ update_dashboard (fun _ a _ => a) (fun _ => None) 20 "BTC-USD" "" 0
        7 15 623197 5000 2032
      = Some (No_solution Q "BTC-USD")
   /\ snd (find_required_assets_with_skip_growth (fun _ a _ => a) 20 2 (0 * 12)
             (7 / 100) (-100 / 100) 623197)
      = Returned (1 # 100))
  /\ ((let run :=
         @find_required_assets_with_skip_growth _ Binary64_PyNum
           (fun _ a _ => a) 20 0
           (PrimFloat.mul (nearest_float 5000) (nearest_float 12))
           (PrimFloat.div (nearest_float 7) (nearest_float 100))
           (PrimFloat.div (nearest_float 15) (nearest_float 100))
           (nearest_float 623197) in
       List.length (fst run) = 42%nat /\ snd run = Raised_ValueError)
      /\ @update_dashboard _ Binary64_PyNum (fun _ a _ => a) (fun _ => None)
           20 "BTC-USD" "" 0 (nearest_float 7) (nearest_float 15)
           (nearest_float 623197) (nearest_float 5000) (nearest_float 2032)
         = Some (No_solution PrimFloat.float "BTC-USD")
      /\ snd (@find_required_assets_with_skip_growth _ Binary64_PyNum
                (fun _ a _ => a) 20 2
                (PrimFloat.mul (nearest_float 0) (nearest_float 12))
                (PrimFloat.div (nearest_float 7) (nearest_float 100))
                (PrimFloat.div (nearest_float (-100)) (nearest_float 100))
                (nearest_float 623197))
         = Returned (nearest_float (1 # 100))).
Proof.
  split; repeat split; vm_compute; reflexivity.
Qed.

(** ** Runs on concrete inputs *)

Example calc_example :
  calculate_balance_with_skip_growth (T:=Q) 1 2 10 (1#10) (1#2) 100 == 124.
Proof. vm_compute. reflexivity. Qed.

(** A bracket found at once: three years of the page's default spending. *)
Example bracket_found_at_once :
  find_bracket 20
    (fun A => calculate_balance_with_skip_growth A 3 60000 (7#100) (15#100) 623197)
  = ([1 # 100; 100], Returned (1 # 100, 100)).
Proof. vm_compute. reflexivity. Qed.

(** The sign of bracket 20 is computed but never looked at: with one year of
    expenses of 60 000 000 and unit value 1 the objective is A - 60 000 000,
    negative at both ends of brackets 0..19 and of opposite signs on
    bracket 20, on which the range test raises. *)
Example bracket_20_is_not_tested :
  let f := fun A => calculate_balance_with_skip_growth A 1 60000000 0 0 1 in
  f (halved 20) < 0 /\ 0 < f (doubled 20)
  /\ snd (find_bracket 20 f) = Raised_ValueError.
Proof. repeat split; vm_compute; reflexivity. Qed.

(** Rounding to an integer goes to the even neighbour on a tie. *)
Example round_examples :
  map (fun x => Qred (Qround_digits x 0)) [1#2; 3#2; 5#2; -3#2; 12#10; 7#4]
  = [0; 2; 2; -2; 1; 2].
Proof. vm_compute. reflexivity. Qed.

(** * Further properties of the program *)

(** ** The default asset values *)

(** X1.  [set_default_asset_value] gives a positive value for exactly the
    four tickers of its dict; for every other string -- the dropdown's
    "CUSTOM" and the empty string among them -- it gives 0. *)
Theorem X1_default_value_known_tickers :
  forall asset : string,
    (In asset ["BTC-USD"; "SOL-USD"; "TSLA"; "MSTR"]%string
     /\ 0 < set_default_asset_value (T:=Q) asset)
    \/ (~ In asset ["BTC-USD"; "SOL-USD"; "TSLA"; "MSTR"]%string
        /\ set_default_asset_value (T:=Q) asset = 0).
Proof.
  intros asset. unfold set_default_asset_value, default_values, dict_get.
  destruct (String.eqb_spec "BTC-USD" asset) as [<-|H1];
    [left; split; [simpl; tauto | reflexivity]|].
  destruct (String.eqb_spec "SOL-USD" asset) as [<-|H2];
    [left; split; [simpl; tauto | reflexivity]|].
  destruct (String.eqb_spec "TSLA" asset) as [<-|H3];
    [left; split; [simpl; tauto | reflexivity]|].
  destruct (String.eqb_spec "MSTR" asset) as [<-|H4];
    [left; split; [simpl; tauto | reflexivity]|].
  right. split; [|reflexivity]. simpl. tauto.
Qed.

(** ** What the price lookup can and cannot change *)

(** X3.  For every arithmetic: the asset chosen and the price found for it
    decide nothing but the ticker and the two price figures of the summary.
    Two runs that differ only in the asset, the custom ticker and the price
    lookup both fail, or both succeed with the same table and the same
    required quantity. *)
Theorem X3_price_lookup_does_not_change_the_table :
  forall (T : Type) (num : PyNum T) (brentq : (T -> T) -> T -> T -> T)
         (fetch1 fetch2 : string -> option T) (fuel : nat)
         (asset1 custom1 asset2 custom2 : string) (years : Z)
         (inflation appreciation asset_value monthly_spend start_year : T),
    match
      update_dashboard brentq fetch1 fuel asset1 custom1 years inflation
        appreciation asset_value monthly_spend start_year,
      update_dashboard brentq fetch2 fuel asset2 custom2 years inflation
        appreciation asset_value monthly_spend start_year
    with
    | None, None => True
    | Some (No_solution _ _), Some (No_solution _ _) => True
    | Some (Solution s1 table1), Some (Solution s2 table2) =>
        table1 = table2
        /\ summary_assets_required s1 = summary_assets_required s2
    | _, _ => False
    end.
Proof.
  intros. unfold update_dashboard.
  destruct (find_required_assets_with_skip_growth _ _ _ _ _ _ _)
    as [evals [A_required| |]]; cbn; auto.
Qed.

(** ** The shape of the table *)

(** X4.  For every arithmetic and all inputs, the table has one row per year
    of the horizon (none when years <= 0) followed by the totals row: row y
    holds the year start_year + y - 1 and the appreciation percentage as
    given, and the row after the last year is the one labelled "Total". *)
Theorem X4_table_has_a_row_per_year :
  forall (T : Type) (num : PyNum T) (A : T) (years : Z)
         (start_year appreciation E0 i r V : T),
    let table := generate_table A years start_year appreciation E0 i r V in
    List.length table = S (Z.to_nat years)
    /\ (forall y, (1 <= y <= years)%Z ->
         exists rw,
           nth_error table (Z.to_nat (y - 1)) = Some rw
           /\ Year rw = CNum (sub (add start_year (lit (inject_Z y))) (lit 1))
           /\ Appreciation_Rate rw = CPercent appreciation)
    /\ (exists total,
          nth_error table (Z.to_nat years) = Some total
          /\ Year total = CStr "Total").
Proof.
  intros T num A years start_year appreciation E0 i r V table. subst table.
  split; [apply generate_table_length|]. split.
  - intros y Hy. eexists. split; [apply generate_table_year_row; lia|].
    cbn [Year Appreciation_Rate year_row yearIndex record_of].
    replace (1 + Z.of_nat (Z.to_nat (y - 1)))%Z with y by lia.
    split; reflexivity.
  - eexists. split; [apply generate_table_last_row|]. reflexivity.
Qed.

(** X5.  For every arithmetic.  With a horizon of a year or more, the first
    row's Starting Balance cell shows round(A * V, 0).  And from one year to
    the next (1 <= y < years) the balance columns chain: the Starting
    Balance cell of year y + 1 is the Ending Balance cell of year y. *)
Theorem X5_balance_columns_chain :
  forall (T : Type) (num : PyNum T) (A : T) (years : Z)
         (start_year appreciation E0 i r V : T),
    (1 <= years)%Z ->
    let table := generate_table A years start_year appreciation E0 i r V in
    (exists first,
        nth_error table 0 = Some first
        /\ Starting_Balance first = CNum (round (mul A V) 0))
    /\ (forall y, (1 <= y < years)%Z ->
         exists rw next,
           nth_error table (Z.to_nat (y - 1)) = Some rw
           /\ nth_error table (Z.to_nat y) = Some next
           /\ Starting_Balance next = Ending_Balance rw).
Proof.
  intros T num A years start_year appreciation E0 i r V Hyears table.
  subst table. split.
  - eexists. split; [apply generate_table_year_row; lia|]. reflexivity.
  - intros y Hy.
    do 2 eexists. split; [apply generate_table_year_row; lia|].
    split; [apply generate_table_year_row; lia|].
    cbn [Starting_Balance Ending_Balance year_row startingBalance
           endingBalance record_of].
    replace (Z.to_nat y) with (S (Z.to_nat (y - 1))) by lia.
    rewrite balance_after_S. reflexivity.
Qed.

Lemma X5_balance_columns_chain_witness :
  let table := generate_table (T:=Q) 1 1 2032 50 10 (1#10) (1#2) 100 in
  exists first,
    nth_error table 0 = Some first
    /\ Starting_Balance first = CNum (round (1 * 100) 0).
Proof.
  destruct (X5_balance_columns_chain (T:=Q) _ 1 2032 50 10 (1#10) (1#2) 100
              (years:=1)) as (W & _); [lia | exact W].
Defined.

(** X6.  For every arithmetic: the living expenses of every year and their
    total depend on the horizon, the base expense and the inflation rate
    only; two runs with different quantities, unit values and appreciation
    rates have the same Living Expenses column, totals row included. *)
Theorem X6_expenses_do_not_depend_on_the_assets :
  forall (T : Type) (num : PyNum T) (years : Z) (start_year E0 i : T)
         (A A' appreciation appreciation' r r' V V' : T),
    map (@Living_Expenses T)
      (generate_table A years start_year appreciation E0 i r V)
    = map (@Living_Expenses T)
        (generate_table A' years start_year appreciation' E0 i r' V').
Proof.
  intros. rewrite !generate_table_living_expenses. reflexivity.
Qed.

(** ** A horizon without years *)

(** X7.  For every arithmetic, when the horizon is 0 or negative the loops
    do not run: the objective is A * V, and the table is the totals row
    alone, with both totals round(0, 0). *)
Theorem X7_no_years_no_rows :
  forall (T : Type) (num : PyNum T) (A : T) (years : Z)
         (start_year appreciation E0 i r V : T),
    (years <= 0)%Z ->
    calculate_balance_with_skip_growth A years E0 i r V = mul A V
    /\ generate_table A years start_year appreciation E0 i r V
       = [ {| Year := CStr "Total";
              Starting_Balance := CStr "-";
              Appreciation_Rate := CStr "-";
              Appreciation_Value := CNum (round (lit 0) 0);
              Subtotal := CStr "-";
              Living_Expenses := CNum (round (lit 0) 0);
              Ending_Balance := CStr "-" |} ].
Proof.
  intros T num A years start_year appreciation E0 i r V Hyears.
  unfold calculate_balance_with_skip_growth, generate_table, table_loop.
  rewrite range_empty by assumption. split; reflexivity.
Qed.

Lemma X7_no_years_no_rows_witness :
  calculate_balance_with_skip_growth (T:=Q) 3 (-2) 60000 (7#100) (15#100) 500
  = 3 * 500.
Proof.
  destruct (X7_no_years_no_rows (T:=Q) _ 3 2032 15 60000 (7#100) (15#100) 500
              (years:=-2)) as (W & _); [lia | exact W].
Defined.

(** ** The chart *)

Lemma filter_year_rows {T : Type} `{PyNum T} (start_year appreciation : T)
    (h : list (YearRecord T)) :
  filter (fun rw => not_total (Year rw)) (map (year_row start_year appreciation) h)
  = map (year_row start_year appreciation) h.
Proof.
  induction h as [|rec h IH]; [reflexivity|].
  cbn [map filter year_row Year not_total]. now rewrite IH.
Qed.

(** X8.  For every arithmetic and all inputs, the chart drawn from the table
    has two traces with one point per year of the horizon and none for the
    totals row: both run over the Year cells of the year rows, the first
    through the rounded starting balances, the second through the rounded
    ending balances. *)
Theorem X8_chart_leaves_out_the_totals_row :
  forall (T : Type) (num : PyNum T) (A : T) (years : Z)
         (start_year appreciation E0 i r V : T),
    let h := history (table_loop A years start_year appreciation E0 i r V) in
    let year_cells :=
      map (fun rec =>
             CNum (sub (add start_year (lit (inject_Z (yearIndex rec)))) (lit 1)))
          h in
    List.length h = Z.to_nat years
    /\ graph_traces (generate_table A years start_year appreciation E0 i r V)
       = [ {| scatter_name := "Starting Balance";
              scatter_x := year_cells;
              scatter_y :=
                map (fun rec => CNum (round (startingBalance rec) 0)) h |};
           {| scatter_name := "Ending Balance";
              scatter_x := year_cells;
              scatter_y :=
                map (fun rec => CNum (round (endingBalance rec) 0)) h |} ].
Proof.
  intros T num A years start_year appreciation E0 i r V h year_cells.
  subst h year_cells. split.
  - rewrite table_loop_history. apply records_upto_length.
  - unfold graph_traces, generate_table.
    rewrite table_loop_data, filter_app, filter_year_rows.
    cbn [filter totals_row Year not_total String.eqb Ascii.eqb Bool.eqb negb].
    rewrite app_nil_r, !map_map. reflexivity.
Qed.

(** ** The books balance *)

Section Accounts.

Variables start_year appreciation E0 i r : Q.

Local Abbreviation tstep := (table_step start_year appreciation E0 i r).

Lemma table_step_accounts (st : table_state Q) (y : Z) :
  balance (tstep st y) - total_appreciation (tstep st y)
    + total_expenses (tstep st y)
  == balance st - total_appreciation st + total_expenses st.
Proof.
  unfold table_step.
  cbn [balance total_appreciation total_expenses add sub mul pow lit Q_PyNum].
  destruct (y =? 1)%Z; ring.
Qed.

Lemma table_fold_accounts (m : nat) (st0 : table_state Q) :
  let st := fold_left tstep (years_upto m) st0 in
  balance st - total_appreciation st + total_expenses st
  == balance st0 - total_appreciation st0 + total_expenses st0.
Proof.
  induction m as [|m IH]; [reflexivity|].
  cbv zeta in *. rewrite table_fold_S, table_step_accounts. exact IH.
Qed.

End Accounts.

(** X9.  In exact arithmetic, for all inputs: the final balance is the
    initial balance plus all the appreciation less all the expenses, where
    the two totals are the ones the table loop accumulates (and the totals
    row shows rounded):
    finalBalance(A) = A * V + total_appreciation - total_expenses. *)
Theorem X9_final_balance_is_initial_plus_growth_less_expenses :
  forall (A : Q) (years : Z) (start_year appreciation E0 i r V : Q),
    let st := table_loop A years start_year appreciation E0 i r V in
    calculate_balance_with_skip_growth A years E0 i r V
    == A * V + total_appreciation st - total_expenses st.
Proof.
  intros A years start_year appreciation E0 i r V st.
  rewrite <- (table_loop_balance A years start_year appreciation E0 i r V).
  fold st.
  pose proof (table_fold_accounts start_year appreciation E0 i r
                (Z.to_nat years)
                {| balance := A * V; data := []; total_expenses := 0;
                   total_appreciation := 0; history := [] |}) as Hacc.
  cbv zeta in Hacc. rewrite <- range_from_one in Hacc.
  change (fold_left _ _ _) with st in Hacc.
  cbn [balance total_appreciation total_expenses] in Hacc.
  lra.
Qed.

(** ** No year in the red *)

Section Solvency.

Variables E0 i r : Q.
Hypothesis expenses_nonneg : 0 <= E0.
Hypothesis inflation_factor_nonneg : 0 <= 1 + i.
Hypothesis growth_factor_pos : 0 < 1 + r.

Lemma balance_step_nonneg_inv (b : Q) (y : Z) :
  0 <= balance_step E0 i r b y -> 0 <= b.
Proof.
  unfold balance_step. cbn [add sub mul pow lit Q_PyNum].
  pose proof (Qpower_0_le (1 + i) (y - 1) inflation_factor_nonneg) as Hp.
  destruct (y =? 1)%Z; intros Hb; nra.
Qed.

Lemma balance_after_nonneg_inv (k d : nat) (b : Q) :
  0 <= balance_after E0 i r (k + d) b -> 0 <= balance_after E0 i r k b.
Proof.
  induction d as [|d IH].
  - now rewrite Nat.add_0_r.
  - rewrite Nat.add_succ_r, balance_after_S. intros Hb.
    apply IH. eapply balance_step_nonneg_inv. exact Hb.
Qed.

End Solvency.

(** X10.  In exact arithmetic, with a non-negative base expense,
    inflation >= -100% and appreciation > -100%: if the final balance is not
    negative, no year of the table starts or ends with a negative balance.
    A quantity that carries the withdrawals to the end of the horizon carries
    them through every year before. *)
Theorem X10_no_year_in_the_red :
  forall (A : Q) (years : Z) (start_year appreciation E0 i r V : Q)
         (y : Z) (rec : YearRecord Q),
    0 <= E0 -> -1 <= i -> -1 < r ->
    0 <= calculate_balance_with_skip_growth A years E0 i r V ->
    year_record
      (history (table_loop A years start_year appreciation E0 i r V)) y
    = Some rec ->
    0 <= startingBalance rec /\ 0 <= endingBalance rec.
Proof.
  intros A years start_year appreciation E0 i r V y rec HE Hi Hr Hfinal Hrec.
  assert (Hy : (1 <= y <= years)%Z).
  { unfold year_record in Hrec.
    destruct (Z.leb_spec 1 y) as [H1|]; [|discriminate].
    split; [exact H1|].
    assert (Hsome : nth_error
                      (history (table_loop A years start_year appreciation
                                  E0 i r V)) (Z.to_nat (y - 1)) <> None)
      by (rewrite Hrec; discriminate).
    apply nth_error_Some in Hsome.
    rewrite table_loop_history, records_upto_length in Hsome. lia. }
  rewrite table_loop_year in Hrec by assumption.
  injection Hrec as <-.
  rewrite calculate_balance_unrolled in Hfinal.
  assert (Hback : forall k, (k <= Z.to_nat years)%nat ->
                            0 <= balance_after E0 i r k (A * V)).
  { intros k Hk.
    apply (@balance_after_nonneg_inv E0 i r) with (d := (Z.to_nat years - k)%nat);
      try lra.
    replace (k + (Z.to_nat years - k))%nat with (Z.to_nat years) by lia.
    exact Hfinal. }
  cbn [startingBalance endingBalance record_of].
  split.
  - rewrite calculate_balance_unrolled. apply Hback. lia.
  - pose proof (Hback (S (Z.to_nat (y - 1)))) as Hend.
    rewrite balance_after_S in Hend.
    replace (1 + Z.of_nat (Z.to_nat (y - 1)))%Z with y in Hend by lia.
    rewrite calculate_balance_unrolled. apply Hend. lia.
Qed.

Lemma X10_no_year_in_the_red_witness :
  exists rec,
    year_record (history (table_loop (T:=Q) 2 2 2032 50 10 0 (1#2) 100)) 1
    = Some rec
    /\ 0 <= startingBalance rec /\ 0 <= endingBalance rec.
Proof.
  eexists. split; [vm_compute; reflexivity|].
  apply (@X10_no_year_in_the_red 2 2 2032 50 10 0 (1#2) 100 1).
  - discriminate.
  - discriminate.
  - reflexivity.
  - vm_compute. discriminate.
  - vm_compute. reflexivity.
Defined.

(** ** Where the objective is evaluated *)

Lemma bracket_points_in (x : Q) (from cnt : nat) :
  In x (bracket_points from cnt) ->
  exists j, (from <= j < from + cnt)%nat /\ (x = halved j \/ x = doubled j).
Proof.
  unfold bracket_points. rewrite in_flat_map.
  intros (j & Hj & Hx). apply in_seq in Hj. exists j. split; [exact Hj|].
  destruct Hx as [<-|[<-|[]]]; auto.
Qed.

Lemma endpoints_within_bracket_20 (j : nat) :
  (j <= 20)%nat ->
  halved 20 <= halved j /\ halved j <= doubled 20
  /\ halved 20 <= doubled j /\ doubled j <= doubled 20.
Proof.
  intros Hj.
  assert (Hall : forallb (fun j => Qle_bool (halved 20) (halved j)
                                   && Qle_bool (halved j) (doubled 20)
                                   && Qle_bool (halved 20) (doubled j)
                                   && Qle_bool (doubled j) (doubled 20))
                   (seq 0 21) = true)
    by (vm_compute; reflexivity).
  rewrite forallb_forall in Hall. specialize (Hall j).
  rewrite !andb_true_iff, !Qle_bool_iff in Hall.
  destruct Hall as [[[H1 H2] H3] H4]; [apply in_seq; lia|]. auto.
Qed.

(** X12.  In exact arithmetic, for all parameters and whatever the root
    finder: every quantity at which the bracket search evaluates the
    objective is positive and lies between 0.01 / 2^20 and 100 * 2^20.  The
    search never simulates a zero or negative quantity. *)
Theorem X12_search_evaluates_positive_quantities_only :
  forall (brentq : (Q -> Q) -> Q -> Q -> Q) (fuel : nat) (n_years : Z)
         (E0 i r V x : Q),
    (20 <= fuel)%nat ->
    In x (fst (find_required_assets_with_skip_growth brentq fuel n_years
                 E0 i r V)) ->
    0 < x /\ halved 20 <= x /\ x <= doubled 20
    /\ halved 20 == 1 # 104857600 /\ doubled 20 == 104857600.
Proof.
  intros brentq fuel n_years E0 i r V x Hfuel Hx.
  unfold find_required_assets_with_skip_growth in Hx.
  set (f := fun A => calculate_balance_with_skip_growth A n_years E0 i r V) in Hx.
  assert (Hin : In x (bracket_points 0 21)).
  { destruct (find_bracket_spec f Hfuel)
      as [(m & Hm & _ & _ & Heq)|(_ & Heq)]; rewrite Heq in Hx;
      cbn [fst] in Hx; [|exact Hx].
    apply bracket_points_in in Hx. destruct Hx as (j & Hj & Hxj).
    unfold bracket_points. rewrite in_flat_map. exists j.
    split; [apply in_seq; lia|].
    destruct Hxj as [-> | ->]; simpl; auto. }
  apply bracket_points_in in Hin. destruct Hin as (j & Hj & Hxj).
  destruct (@endpoints_within_bracket_20 j) as (H1 & H2 & H3 & H4); [lia|].
  pose proof (halved_pos j). pose proof (doubled_pos j).
  destruct Hxj as [-> | ->]; repeat split; try assumption;
    vm_compute; reflexivity.
Qed.

Lemma X12_search_evaluates_witness :
  0 < 100 /\ halved 20 <= 100 /\ 100 <= doubled 20.
Proof.
  destruct (@X12_search_evaluates_positive_quantities_only
              (fun _ a _ => a) 20 2 120 (1#10) (1#2) 1 100)
    as (W1 & W2 & W3 & _); [lia | vm_compute; right; left; reflexivity | auto].
Defined.

(** ** The required quantity in closed form *)

Lemma compounded_expenses_pos (m : nat) (E0 i r : Q) :
  0 < E0 -> 0 <= 1 + i -> 0 < 1 + r ->
  0 < compounded_expenses (Z.of_nat (S m)) E0 i r.
Proof.
  intros HE Hi Hr. induction m as [|m IH].
  - rewrite (compounded_expenses_S E0 i r 0).
    change (compounded_expenses (Z.of_nat 0) E0 i r) with 0.
    change ((1 + i) ^ Z.of_nat 0) with 1. lra.
  - rewrite (compounded_expenses_S E0 i r (S m)).
    pose proof (Qpower_0_le (1 + i) (Z.of_nat (S m)) Hi). nra.
Qed.

(** X13.  In exact arithmetic, for a horizon n >= 1, a positive unit value
    and appreciation > -100%: the quantities with final balance 0 are those
    equal to
    (sum over y = 1..n of E0 * (1+i)^(y-1) * (1+r)^(n-y)) / (V * (1+r)^(n-1)),
    and with a positive base expense and inflation >= -100% that quantity is
    positive. *)
Theorem X13_required_quantity_closed_form :
  forall (A : Q) (n : Z) (E0 i r V : Q),
    (1 <= n)%Z -> 0 < V -> -1 < r ->
    let required := compounded_expenses n E0 i r / (V * (1 + r) ^ (n - 1)) in
    (calculate_balance_with_skip_growth A n E0 i r V == 0 <-> A == required)
    /\ (0 < E0 -> -1 <= i -> 0 < required).
Proof.
  intros A n E0 i r V Hn HV Hr required.
  assert (Hs : 0 < (1 + r) ^ (n - 1)) by (apply Qpower_0_lt; lra).
  assert (Hslope : 0 < V * (1 + r) ^ (n - 1)) by nra.
  split.
  - rewrite calculate_balance_closed by assumption. subst required.
    set (s := (1 + r) ^ (n - 1)) in *.
    set (S := compounded_expenses n E0 i r).
    split; intros HA.
    + assert (HS : S == A * (V * s)) by lra.
      rewrite HS. field. split; lra.
    + rewrite HA. field. split; lra.
  - intros HE Hi. subst required.
    replace n with (Z.of_nat (S (Z.to_nat (n - 1)))) at 1 by lia.
    pose proof (@compounded_expenses_pos (Z.to_nat (n - 1)) E0 i r HE) as Hc.
    apply Qlt_shift_div_l; [exact Hslope|].
    rewrite Qmult_0_l. apply Hc; lra.
Qed.

Lemma X13_required_quantity_witness :
  calculate_balance_with_skip_growth (21 # 100) 2 10 (1#10) (1#2) 100 == 0
  <-> (21 # 100)
      == compounded_expenses 2 10 (1#10) (1#2) / (100 * (1 + (1#2)) ^ (2 - 1)).
Proof.
  destruct (@X13_required_quantity_closed_form (21 # 100) 2 10 (1#10) (1#2) 100)
    as (W & _); [lia | reflexivity | reflexivity | exact W].
Defined.

(** ** No inflation, no growth *)

Lemma balance_after_flat (E0 b : Q) (m : nat) :
  balance_after E0 0 0 m b == b - inject_Z (Z.of_nat m) * E0.
Proof.
  induction m as [|m IH].
  - change (balance_after E0 0 0 0 b) with b.
    change (inject_Z (Z.of_nat 0)) with 0. ring.
  - rewrite balance_after_S. unfold balance_step.
    cbn [add sub mul pow lit Q_PyNum].
    change (1 + 0) with 1. rewrite Qpower_1.
    rewrite Nat2Z.inj_succ, <- Z.add_1_r, inject_Z_plus.
    change (inject_Z 1) with 1.
    destruct (1 + Z.of_nat m =? 1)%Z; rewrite IH; ring.
Qed.

(** X14.  In exact arithmetic, with 0% inflation and 0% appreciation the
    balance just runs down by the base expense each year: for a horizon
    n >= 0 the final balance is A * V - n * E0. *)
Theorem X14_flat_rates_run_down_linearly :
  forall (A : Q) (n : Z) (E0 V : Q),
    (0 <= n)%Z ->
    calculate_balance_with_skip_growth A n E0 0 0 V
    == A * V - inject_Z n * E0.
Proof.
  intros A n E0 V Hn. rewrite calculate_balance_unrolled, balance_after_flat.
  rewrite Z2Nat.id by assumption. reflexivity.
Qed.

Lemma X14_flat_rates_witness :
  calculate_balance_with_skip_growth 3 4 10 0 0 20 == 3 * 20 - inject_Z 4 * 10.
Proof.
  apply (@X14_flat_rates_run_down_linearly 3 4 10 20). lia.
Defined.

(** ** Spending more *)

Lemma balance_after_le_expenses (E0 E0' i r : Q) (m : nat) (b b' : Q) :
  0 <= 1 + i -> 0 < 1 + r -> E0 <= E0' -> b' <= b ->
  balance_after E0' i r m b' <= balance_after E0 i r m b.
Proof.
  intros Hi Hr HE Hb. induction m as [|m IH]; [exact Hb|].
  rewrite !balance_after_S. unfold balance_step.
  cbn [add sub mul pow lit Q_PyNum].
  pose proof (Qpower_0_le (1 + i) (1 + Z.of_nat m - 1) Hi) as Hp.
  destruct (1 + Z.of_nat m =? 1)%Z; nra.
Qed.

(** X15.  In exact arithmetic, with inflation >= -100% and
    appreciation > -100%: for the same quantity, horizon and rates, a larger
    base expense never leaves a larger final balance. *)
Theorem X15_more_spending_leaves_no_more :
  forall (A : Q) (n : Z) (E0 E0' i r V : Q),
    -1 <= i -> -1 < r -> E0 <= E0' ->
    calculate_balance_with_skip_growth A n E0' i r V
    <= calculate_balance_with_skip_growth A n E0 i r V.
Proof.
  intros A n E0 E0' i r V Hi Hr HE. rewrite !calculate_balance_unrolled.
  apply balance_after_le_expenses; lra.
Qed.

Lemma X15_more_spending_witness :
  calculate_balance_with_skip_growth 1 2 20 (1#10) (1#2) 100
  <= calculate_balance_with_skip_growth 1 2 10 (1#10) (1#2) 100.
Proof.
  apply (@X15_more_spending_leaves_no_more 1 2 10 20 (1#10) (1#2) 100);
    first [reflexivity | discriminate].
Defined.

(** ** The last cell of the table *)

Lemma round_half_even_small (x : Q) :
  - (1 # 2) <= x -> x <= 1 # 2 -> round_half_even x = 0%Z.
Proof.
  intros Hlo Hhi. unfold round_half_even.
  pose proof (Qfloor_le x) as Hfl. pose proof (Qlt_floor x) as Hfl'.
  assert (Hz : Qfloor x = 0%Z \/ Qfloor x = (-1)%Z).
  { assert (H1 : inject_Z (Qfloor x) <= 1 # 2) by lra.
    assert (H2 : - (1 # 2) < inject_Z (Qfloor x + 1)) by lra.
    unfold Qle in H1. unfold Qlt in H2. simpl in H1, H2. lia. }
  destruct Hz as [Hz|Hz]; rewrite Hz in *.
  - destruct (Qcompare_spec (x - inject_Z 0) (1 # 2)) as [He|Hl|Hg];
      [reflexivity | reflexivity|].
    change (inject_Z 0) with 0 in Hg. lra.
  - destruct (Qcompare_spec (x - inject_Z (-1)) (1 # 2)) as [He|Hl|Hg];
      [reflexivity | | reflexivity].
    change (inject_Z (-1)) with (-1 # 1) in Hl. lra.
Qed.

Lemma Qround_digits_small (x : Q) :
  - (1 # 2) <= x -> x <= 1 # 2 -> Qround_digits x 0 = 0.
Proof.
  intros Hlo Hhi. unfold Qround_digits.
  change (inject_Z 10 ^ 0) with 1.
  rewrite round_half_even_small by lra. reflexivity.
Qed.

(** X16.  In exact arithmetic, for a horizon of a year or more: when the
    final balance at the quantity the table is built from is within 0.5 of
    zero, the Ending Balance cell of the last year shows 0. *)
Theorem X16_last_ending_balance_shows_zero :
  forall (A : Q) (years : Z) (start_year appreciation E0 i r V : Q),
    (1 <= years)%Z ->
    - (1 # 2) <= calculate_balance_with_skip_growth A years E0 i r V ->
    calculate_balance_with_skip_growth A years E0 i r V <= 1 # 2 ->
    exists last_year,
      nth_error (generate_table A years start_year appreciation E0 i r V)
        (Z.to_nat (years - 1))
      = Some last_year
      /\ Ending_Balance last_year = CNum 0.
Proof.
  intros A years start_year appreciation E0 i r V Hyears Hlo Hhi.
  eexists. split; [apply generate_table_year_row; lia|].
  cbn [Ending_Balance year_row endingBalance record_of round Q_PyNum].
  f_equal. apply Qround_digits_small.
  - rewrite (calculate_balance_year A E0 i r V Hyears) in Hlo.
    rewrite calculate_balance_unrolled in Hlo.
    replace (1 + Z.of_nat (Z.to_nat (years - 1)))%Z with years by lia.
    exact Hlo.
  - rewrite (calculate_balance_year A E0 i r V Hyears) in Hhi.
    rewrite calculate_balance_unrolled in Hhi.
    replace (1 + Z.of_nat (Z.to_nat (years - 1)))%Z with years by lia.
    exact Hhi.
Qed.

Lemma X16_last_ending_balance_witness :
  exists last_year,
    nth_error (generate_table (T:=Q) (24 # 5) 2 2032 0 ((1#5) * 12) 0 0 1)
      (Z.to_nat (2 - 1))
    = Some last_year
    /\ Ending_Balance last_year = CNum 0.
Proof.
  apply X16_last_ending_balance_shows_zero;
    [lia | vm_compute; discriminate | vm_compute; discriminate].
Defined.

Lemma X4_table_has_a_row_per_year_witness :
  exists rw,
    nth_error (generate_table (T:=Q) 1 3 2032 50 10 (1#10) (1#2) 100)
      (Z.to_nat (2 - 1))
    = Some rw
    /\ Year rw = CNum (2032 + inject_Z 2 - 1)
    /\ Appreciation_Rate rw = CPercent 50.
Proof.
  destruct (X4_table_has_a_row_per_year (T:=Q) _ 1 3 2032 50 10 (1#10) (1#2)
              100) as (_ & W & _).
  apply (W 2%Z). lia.
Defined.
